(** * Profile.jsx: the therapist profile panel

    A shallow embedding of [src/components/Custom/Profile.jsx].  The React
    component is modelled by the state it owns ([useState] cells, the
    react-hook-form values, the TanStack query cache) together with the
    browser environment it touches (localStorage, the network, toasts, the
    console).  Every hook callback and event handler of the source becomes a
    computation in a small state-and-exception monad, so that a [throw]
    keeps the effects performed before it, as in JavaScript.  The libraries
    the component calls (axios, TanStack Query, react-hook-form, jwt-decode,
    sonner) are modelled by their documented behaviour, as far as the
    component relies on it; [jwtDecode], the hash of query keys and the
    matching of invalidation filters stay parameters.

    JavaScript values are modelled as far as the component can observe them:
    numbers are the integers plus [NaN] (payloads with fractional numbers are
    outside the model), objects and arrays carry an identity used by [===],
    and property reads cover own properties only (payload objects are
    assumed not to shadow [toString]). *)

From Stdlib Require Import ZArith Lia Ascii String.
From stdpp Require Import base strings gmap list pretty.

Open Scope Z_scope.
Set Warnings "-register-all".

(** ** JavaScript values *)

Module JS.

(** A [File] picked in an [<input type="file">]. *)
Record File := mkFile {
  file_id   : positive;
  file_name : string;
  file_size : N;
  file_type : string;
}.

Inductive value :=
| Undefined
| Null
| Bool (b : bool)
| Num (n : Z)
| NaN
| Str (s : string)
| Arr (id : positive) (elems : list value)
| Obj (id : positive) (props : list (string * value))
| FileV (f : File).

Definition props := list (string * value).

(** ToBoolean. *)
Definition truthy (v : value) : bool :=
  match v with
  | Undefined | Null | NaN => false
  | Bool b => b
  | Num n => negb (n =? 0)
  | Str s => negb (String.eqb s "")
  | Arr _ _ | Obj _ _ | FileV _ => true
  end.

(** [a || b] on values. *)
Definition or_else (a b : value) : value := if truthy a then a else b.

Definition typeof (v : value) : string :=
  match v with
  | Undefined => "undefined"
  | Null | Arr _ _ | Obj _ _ | FileV _ => "object"
  | Bool _ => "boolean"
  | Num _ | NaN => "number"
  | Str _ => "string"
  end.

Definition nullish (v : value) : bool :=
  match v with Undefined | Null => true | _ => false end.

(** [a === b]: primitives by value ([NaN] differs from itself), objects,
    arrays and files by identity. *)
Definition strict_eq (a b : value) : bool :=
  match a, b with
  | Undefined, Undefined => true
  | Null, Null => true
  | Bool x, Bool y => Bool.eqb x y
  | Num x, Num y => x =? y
  | Str x, Str y => String.eqb x y
  | Arr i _, Arr j _ => Pos.eqb i j
  | Obj i _, Obj j _ => Pos.eqb i j
  | FileV f, FileV g => Pos.eqb (file_id f) (file_id g)
  | _, _ => false
  end.

(** Own-property lookup in a property list; the first binding of a key is
    the object's. *)
Fixpoint lookup_prop (ps : props) (k : string) : value :=
  match ps with
  | [] => Undefined
  | (k', v) :: rest => if String.eqb k' k then v else lookup_prop rest k
  end.

(** [Object.keys]. *)
Definition Object_keys (ps : props) : list string := remove_dups (ps.*1).

(** [v[k]] for a [v] that is neither [null] nor [undefined]. *)
Definition member (v : value) (k : string) : value :=
  match v with
  | Obj _ ps => lookup_prop ps k
  | Arr _ es => if String.eqb k "length" then Num (Z.of_nat (length es)) else Undefined
  | Str s => if String.eqb k "length" then Num (Z.of_nat (String.length s)) else Undefined
  | FileV f =>
      if String.eqb k "size" then Num (Z.of_N (file_size f))
      else if String.eqb k "type" then Str (file_type f)
      else if String.eqb k "name" then Str (file_name f)
      else Undefined
  | _ => Undefined
  end.

(** [v?.k]. *)
Definition opt_member (v : value) (k : string) : value :=
  if nullish v then Undefined else member v k.

(** [s.includes(needle)]. *)
Fixpoint includes (s needle : string) : bool :=
  String.prefix needle s
  || match s with
     | EmptyString => false
     | String _ rest => includes rest needle
     end.

Fixpoint join (sep : string) (parts : list string) : string :=
  match parts with
  | [] => ""
  | [p] => p
  | p :: rest => p +:+ sep +:+ join sep rest
  end.

(** ToString, as applied by template literals and by [toString()]. *)
Fixpoint ToString (v : value) : string :=
  match v with
  | Undefined => "undefined"
  | Null => "null"
  | Bool true => "true"
  | Bool false => "false"
  | Num n => pretty n
  | NaN => "NaN"
  | Str s => s
  | Arr _ es =>
      join "," (map (fun e => if nullish e then "" else ToString e) es)
  | Obj _ _ => "[object Object]"
  | FileV _ => "[object File]"
  end.

End JS.

Import JS.

(** ** [hasChanges] *)

Fixpoint hasChanges_loop (keys : list string) (current initial : props) : bool :=
  match keys with
  | [] => false
  | key :: rest =>
      if String.eqb key "image" then
        if negb (strict_eq (lookup_prop current key) (lookup_prop initial key))
        then true
        else hasChanges_loop rest current initial
      else if negb (strict_eq (lookup_prop current key) (lookup_prop initial key))
      then true
      else hasChanges_loop rest current initial
  end.

Definition hasChanges (current initial : props) : bool :=
  hasChanges_loop (Object_keys current) current initial.

(** ** Environment: network, exceptions, notifications *)

(** What axios hands back for a request the server answered. *)
Record response := mkResponse {
  status : Z;
  data   : value;
}.

(** How the network answers one request: no answer at all, or a response. *)
Inductive outcome :=
| NetworkFailure
| Responds (r : response).

(** Thrown values: [new Error(message)], an engine [TypeError], and the
    error with which axios rejects (it carries the response when the server
    answered with a status that [validateStatus] refuses). *)
Inductive exn :=
| Error (message : string)
| TypeError (message : string)
| AxiosError (message : string) (resp : option response).

(** [error.message]. *)
Definition exn_message (e : exn) : value :=
  match e with
  | Error m | TypeError m | AxiosError m _ => Str m
  end.

(** [error.response?.data?.error]. *)
Definition exn_response_data_error (e : exn) : value :=
  match e with
  | AxiosError _ (Some r) => opt_member (data r) "error"
  | _ => Undefined
  end.

(** A request as axios sends it; [body] lists the multipart entries. *)
Record request := mkRequest {
  method        : string;
  url           : string;
  authorization : option string;
  body          : list (string * value);
}.

(** [toast.success] and [toast.error] of sonner, by their message. *)
Inductive toast :=
| toast_success (message : value)
| toast_error (message : value).

(** One entry of the TanStack query cache. *)
Inductive query_status :=
| QPending
| QSuccess
| QError (e : exn).

Record query := mkQuery {
  q_data        : value;
  q_status      : query_status;
  q_invalidated : bool;
}.

(** ** Component state *)

Record state := mkState {
  (* useState cells *)
  imagePreview  : value;
  therapistId   : value;
  initialValues : props;
  (* react-hook-form *)
  formValues    : props;
  (* TanStack query cache, by query hash *)
  queryCache    : gmap string query;
  (* browser *)
  localStorage  : gmap string string;
  network       : list request;
  toasts        : list toast;
  console       : list (string * string);
  objectURLs    : N;
}.

Definition set_imagePreview (v : value) (st : state) : state :=
  mkState v (therapistId st) (initialValues st) (formValues st) (queryCache st)
          (localStorage st) (network st) (toasts st) (console st) (objectURLs st).

Definition set_therapistId (v : value) (st : state) : state :=
  mkState (imagePreview st) v (initialValues st) (formValues st) (queryCache st)
          (localStorage st) (network st) (toasts st) (console st) (objectURLs st).

Definition set_initialValues (ps : props) (st : state) : state :=
  mkState (imagePreview st) (therapistId st) ps (formValues st) (queryCache st)
          (localStorage st) (network st) (toasts st) (console st) (objectURLs st).

Definition set_formValues (ps : props) (st : state) : state :=
  mkState (imagePreview st) (therapistId st) (initialValues st) ps (queryCache st)
          (localStorage st) (network st) (toasts st) (console st) (objectURLs st).

Definition set_queryCache (c : gmap string query) (st : state) : state :=
  mkState (imagePreview st) (therapistId st) (initialValues st) (formValues st) c
          (localStorage st) (network st) (toasts st) (console st) (objectURLs st).

Definition push_request (r : request) (st : state) : state :=
  mkState (imagePreview st) (therapistId st) (initialValues st) (formValues st)
          (queryCache st) (localStorage st) (network st ++ [r]) (toasts st)
          (console st) (objectURLs st).

Definition push_toast (t : toast) (st : state) : state :=
  mkState (imagePreview st) (therapistId st) (initialValues st) (formValues st)
          (queryCache st) (localStorage st) (network st) (toasts st ++ [t])
          (console st) (objectURLs st).

Definition push_console (level label : string) (st : state) : state :=
  mkState (imagePreview st) (therapistId st) (initialValues st) (formValues st)
          (queryCache st) (localStorage st) (network st) (toasts st)
          (console st ++ [(level, label)]) (objectURLs st).

Definition bump_objectURLs (st : state) : state :=
  mkState (imagePreview st) (therapistId st) (initialValues st) (formValues st)
          (queryCache st) (localStorage st) (network st) (toasts st)
          (console st) (N.succ (objectURLs st)).

(** ** The monad of handlers: state, and exceptions that keep the state *)

Inductive result (A : Type) :=
| Ok (a : A)
| Throw (e : exn).
Arguments Ok {A} a.
Arguments Throw {A} e.

Definition M (A : Type) : Type := state -> result A * state.

Definition ret {A} (a : A) : M A := fun st => (Ok a, st).

Definition throw {A} (e : exn) : M A := fun st => (Throw e, st).

Definition bind {A B} (m : M A) (k : A -> M B) : M B :=
  fun st =>
    match m st with
    | (Ok a, st') => k a st'
    | (Throw e, st') => (Throw e, st')
    end.

(** [try { m } catch (error) { handler error }]. *)
Definition try_catch {A} (m : M A) (handler : exn -> M A) : M A :=
  fun st =>
    match m st with
    | (Ok a, st') => (Ok a, st')
    | (Throw e, st') => handler e st'
    end.

Definition modify (f : state -> state) : M unit := fun st => (Ok tt, f st).

Definition gets {A} (f : state -> A) : M A := fun st => (Ok (f st), st).

Declare Scope js_scope.
Delimit Scope js_scope with js.
Notation "'let*' x ':=' c 'in' k" := (bind c (fun x => k))
  (at level 10, x name, c at level 100, k at level 200, only parsing) : js_scope.
Notation "c1 ';;;' c2" := (bind c1 (fun _ => c2))
  (at level 100, c2 at level 200, right associativity, only parsing) : js_scope.
Open Scope js_scope.

(** [v.k]: a [TypeError] on [null] and [undefined]. *)
Definition get (v : value) (k : string) : M value :=
  if nullish v
  then throw (TypeError ("Cannot read properties of " +:+ ToString v
                         +:+ " (reading '" +:+ k +:+ "')"))
  else ret (member v k).

Definition console_log (label : string) : M unit := modify (push_console "log" label).
Definition console_error (label : string) : M unit := modify (push_console "error" label).

Definition localStorage_getItem (k : string) : M value :=
  gets (fun st => match localStorage st !! k with
                  | Some s => Str s
                  | None => Null
                  end).

(** [URL.createObjectURL]: a fresh [blob:] reference per call. *)
Definition createObjectURL (f : File) : M string :=
  let* n := gets objectURLs in
  modify bump_objectURLs ;;;
  ret ("blob:" +:+ pretty n).

(** An axios call: the request goes out, and the promise rejects when the
    network fails or [validateStatus] refuses the status. *)
Definition axios_request (req : request) (validateStatus : Z -> bool)
    (net : outcome) : M response :=
  modify (push_request req) ;;;
  match net with
  | NetworkFailure => throw (AxiosError "Network Error" None)
  | Responds r =>
      if validateStatus (status r)
      then ret r
      else throw (AxiosError ("Request failed with status code " +:+ pretty (status r))
                             (Some r))
  end.

Definition baseURL : string := "http://localhost:5000".

(** ** Field validation (react-hook-form rules) *)

Definition char_code (c : ascii) : Z := Z.of_N (Ascii.N_of_ascii c).

(** [\d] *)
Definition is_digit (c : ascii) : bool := (48 <=? char_code c) && (char_code c <=? 57).

(** White space skipped by [parseInt] (the ASCII part of it). *)
Definition is_whitespace (c : ascii) : bool :=
  ((9 <=? char_code c) && (char_code c <=? 13)) || (char_code c =? 32).

(** The value of [c] as a digit of base [radix], when it is one. *)
Definition digit_value (radix : Z) (c : ascii) : option Z :=
  let n := char_code c in
  let d := if (48 <=? n) && (n <=? 57) then Some (n - 48)
           else if (97 <=? n) && (n <=? 122) then Some (n - 87)
           else if (65 <=? n) && (n <=? 90) then Some (n - 55)
           else None in
  match d with
  | Some v => if v <? radix then Some v else None
  | None => None
  end.

Fixpoint skip_whitespace (s : string) : string :=
  match s with
  | String c rest => if is_whitespace c then skip_whitespace rest else s
  | EmptyString => s
  end.

(** The longest prefix of digits, read in base [radix]; [acc] is [None]
    until a digit was seen. *)
Fixpoint parse_digits (radix : Z) (s : string) (acc : option Z) : option Z :=
  match s with
  | String c rest =>
      match digit_value radix c with
      | Some d => parse_digits radix rest (Some (default 0 acc * radix + d))
      | None => acc
      end
  | EmptyString => acc
  end.

(** [parseInt(s)] with no radix argument; [None] is [NaN]. *)
Definition parseInt (s : string) : option Z :=
  let s1 := skip_whitespace s in
  let '(sign, s2) :=
    match s1 with
    | String "-"%char rest => (-1, rest)
    | String "+"%char rest => (1, rest)
    | _ => (1, s1)
    end in
  let '(radix, s3) :=
    match s2 with
    | String "0"%char (String "x"%char rest) => (16, rest)
    | String "0"%char (String "X"%char rest) => (16, rest)
    | _ => (10, s2)
    end in
  match parse_digits radix s3 None with
  | Some n => Some (sign * n)
  | None => None
  end.

(** [/^\d{4}$/] *)
Definition four_digit_pattern (s : string) : bool :=
  match s with
  | String a (String b (String c (String d EmptyString))) =>
      is_digit a && is_digit b && is_digit c && is_digit d
  | _ => false
  end.

(** The [rules] prop of a [FormField], for a text input. *)
Record rules := mkRules {
  required  : option string;
  minLength : option (nat * string);
  pattern   : option ((string -> bool) * string);
  validate  : option (string -> value);
}.

Record field_error := mkFieldError {
  err_type    : string;
  err_message : string;
}.

Definition first_error (e : option field_error) (next : option field_error)
    : option field_error :=
  match e with
  | Some x => Some x
  | None => next
  end.

(** react-hook-form's field validation with the default criteria mode:
    [required], then [minLength], then [pattern], then [validate]; the
    first failing rule gives the field's error. *)
Definition validateField (r : rules) (inputValue : string) : option field_error :=
  let isEmpty := String.eqb inputValue "" in
  first_error
    (match required r with
     | Some msg => if isEmpty then Some (mkFieldError "required" msg) else None
     | None => None
     end)
  (first_error
    (match minLength r with
     | Some (n, msg) =>
         if negb isEmpty && (String.length inputValue <? n)%nat
         then Some (mkFieldError "minLength" msg) else None
     | None => None
     end)
  (first_error
    (match pattern r with
     | Some (re, msg) =>
         if negb isEmpty && negb (re inputValue)
         then Some (mkFieldError "pattern" msg) else None
     | None => None
     end)
    (match validate r with
     | Some f =>
         match f inputValue with
         | Str msg => Some (mkFieldError "validate" msg)
         | Bool false => Some (mkFieldError "validate" "")
         | _ => None
         end
     | None => None
     end))).

Definition full_name_rules : rules :=
  mkRules (Some "Full name is required")
          (Some (2%nat, "Name must be at least 2 characters")) None None.

Definition phone_rules : rules :=
  mkRules (Some "Phone number is required") None None None.

Definition address_rules : rules :=
  mkRules (Some "Address is required")
          (Some (5%nat, "Address must be at least 5 characters")) None None.

Definition nic_number_rules : rules := mkRules None None None None.

(** [parseInt(value) <= new Date().getFullYear()]; a comparison with [NaN]
    is false. *)
Definition not_after (currentYear : Z) (value : string) : bool :=
  match parseInt value with
  | Some n => n <=? currentYear
  | None => false
  end.

(** The rules of [work_start_year]; [currentYear] is
    [new Date().getFullYear()]. *)
Definition work_start_year_rules (currentYear : Z) : rules :=
  mkRules (Some "Work start year is required")
          None
          (Some (four_digit_pattern, "Enter a valid 4-digit year"))
          (Some (fun value =>
                   or_else (Bool (not_after currentYear value))
                           (Str "Work start year cannot be in the future"))).

(** ** Sample data *)

(** A decoder that accepts two tokens: one with a [therapist_id] claim,
    one without. *)
Definition sample_jwtDecode (token : string) : option value :=
  if String.eqb token "with-id" then Some (Obj 1 [("therapist_id", Num 7); ("exp", Num 1999999999)])
  else if String.eqb token "without-id" then Some (Obj 2 [("exp", Num 1999999999)])
  else None.

Definition sample_hashKey (key : list value) : string :=
  "[" +:+ join "," (map ToString key) +:+ "]".

Definition sample_record : value :=
  Obj 10 [("id", Num 7); ("full_name", Str "A. Perera"); ("phone", Str "94770000000");
          ("email", Str "a@b.com"); ("address", Str "12 Lake Road");
          ("nic_number", Str "X"); ("work_start_year", Num 1999);
          ("image_path", Str "uploads/a.png")].

(** An object payload that itself has a [data] property. *)
Definition sample_nested : value :=
  Obj 20 [("data", Obj 21 [("full_name", Str "A. Perera")])].

(** A bare record, sent unwrapped, that has a [data] property of its own. *)
Definition sample_record_with_data : value :=
  Obj 40 [("nic_number", Str "X"); ("data", Obj 41 [("k", Num 1)])].

(** A query filter that matches every cached query. *)
Definition sample_queryMatches (key : list value) (hash : string) : bool := true.

Definition sample_gif : File := mkFile 30 "a.gif" (5 * 1024 * 1024) "image/gif".

(** ** The component *)

Section Profile.

(** [jwtDecode] of jwt-decode: the decoded payload, or [None] when it
    throws. *)
Variable jwtDecode : string -> option value.

(** jwt-decode refuses the empty string: it has no payload part. *)
Hypothesis jwtDecode_empty : jwtDecode "" = None.

(** TanStack's hash of a query key. *)
Variable hashKey : list value -> string.

(** Whether the filter that [invalidateQueries] builds from its argument
    [key] matches the cached query stored under [hash].  The library
    decides it on the query's key: by key prefix where the argument is
    taken as a query key, every query where the argument is taken as a
    filter object and, being an array, names no key. *)
Variable queryMatches : list value -> string -> bool.

(** Either way the query of the key itself is matched. *)
Hypothesis queryMatches_exact : forall key, queryMatches key (hashKey key) = true.

(** The component right after its first render, before any effect ran. *)
Definition mount (storage : gmap string string) : state :=
  mkState Null Null []
          [("full_name", Str ""); ("phone", Str ""); ("email", Str "");
           ("address", Str ""); ("nic_number", Str ""); ("work_start_year", Str "");
           ("image", Null)]
          ∅ storage [] [] [] 0%N.

Definition setTherapistId (v : value) : M unit := modify (set_therapistId v).
Definition setImagePreview (v : value) : M unit := modify (set_imagePreview v).
Definition setInitialValues (ps : props) : M unit := modify (set_initialValues ps).

(** [jwtDecode(token)] as a call that may throw. *)
Definition jwtDecode_call (token : value) : M value :=
  match token with
  | Str s =>
      match jwtDecode s with
      | Some payload => ret payload
      | None => throw (Error "Invalid token specified")
      end
  | _ => throw (Error "Invalid token specified: must be a string")
  end.

(** The first effect: get the therapist id from the token. *)
Definition resolveTherapistId : M unit :=
  let* token := localStorage_getItem "therapyToken" in
  if truthy token then
    try_catch
      (let* decoded := jwtDecode_call token in
       if truthy (opt_member decoded "therapist_id")
       then setTherapistId (member decoded "therapist_id")
       else ret tt)
      (fun error =>
         console_error "Token decode error:" ;;;
         setTherapistId (Num 35))
  else setTherapistId (Num 35).

(** *** The query *)

Definition queryKey (id : value) : list value := [Str "therapist"; id].

(** [queryClient.setQueryData]: [undefined] leaves the cache alone. *)
Definition setQueryData (key : list value) (v : value) (st : state) : state :=
  match v with
  | Undefined => st
  | _ => set_queryCache (<[hashKey key := mkQuery v QSuccess false]> (queryCache st)) st
  end.

(** The read request for the identifier [id]. *)
Definition read_request (id : value) : request :=
  mkRequest "GET" ("http://localhost:5000/api/therapists/" +:+ ToString id) None [].

(** What [invalidateQueries] does to the entry under [hash]: a matched
    entry keeps its data and status and is marked invalidated. *)
Definition invalidated (key : list value) (hash : string) (q : query) : option query :=
  Some (if queryMatches key hash then mkQuery (q_data q) (q_status q) true else q).

(** [queryClient.invalidateQueries]: every matched entry is marked
    invalidated, and a matched query that is mounted and enabled is
    refetched at once.  The panel mounts one query, that of its current
    identifier, enabled when the identifier is truthy (line 114): the GET
    of its [queryFn] goes out here, and the answer arrives after the
    handler has returned. *)
Definition invalidateQueries (key : list value) (st : state) : state :=
  let marked := set_queryCache (map_imap (invalidated key) (queryCache st)) st in
  if truthy (therapistId st) && queryMatches key (hashKey (queryKey (therapistId st)))
  then push_request (read_request (therapistId st)) marked
  else marked.

(** The [data] that [useQuery] returns: [therapist]. *)
Definition therapist (st : state) : value :=
  match queryCache st !! hashKey (queryKey (therapistId st)) with
  | Some q => q_data q
  | None => Undefined
  end.

(** Lines 101-108: unwrap [{data: ...}] or take the payload as it is. *)
Definition therapistData_of (payload : value) : M value :=
  let therapistData := or_else (opt_member payload "data") payload in
  if negb (truthy therapistData) || negb (String.eqb (typeof therapistData) "object")
  then
    console_error "Unexpected response format:" ;;;
    throw (Error "Invalid response format from server")
  else ret therapistData.

Definition queryFn (net : outcome) : M value :=
  try_catch
    (let* id := gets therapistId in
     let* response :=
       axios_request
         (mkRequest "GET" ("http://localhost:5000/api/therapists/" +:+ ToString id) None [])
         (fun status => status <? 500)
         net in
     console_log "Full API response:" ;;;
     console_log "Response data:" ;;;
     if status response =? 404
     then throw (Error "Therapist profile not found")
     else
       if String.eqb (typeof (data response)) "string"
          && includes (ToString (data response)) "<!doctype html"
       then
         console_error "Received HTML instead of JSON:" ;;;
         throw (Error "Invalid response: Received HTML from server")
       else therapistData_of (data response))
    (fun error =>
       console_error "API request failed:" ;;;
       throw error).

(** [enabled: !!therapistId] *)
Definition enabled (st : state) : bool := truthy (therapistId st).

Definition query_settled (v : value) (s : query_status) (st : state) : state :=
  set_queryCache
    (<[hashKey (queryKey (therapistId st)) := mkQuery v s false]> (queryCache st)) st.

(** One fetch by [useQuery]: nothing when the query is disabled; otherwise
    [queryFn], tried a second time when the first attempt fails
    ([retry: 1]).  [first] and [second] are the network's answers. *)
Definition fetchTherapist (first second : outcome) (st : state) : state :=
  if enabled st then
    match queryFn first st with
    | (Ok d, st1) => query_settled d QSuccess st1
    | (Throw _, st1) =>
        match queryFn second st1 with
        | (Ok d, st2) => query_settled d QSuccess st2
        | (Throw e, st2) => query_settled (therapist st2) (QError e) st2
        end
    end
  else st.

(** *** Form population (the effect on [therapist]) *)

Definition image_url (image_path : value) : value :=
  if truthy image_path
  then Str ("http://localhost:5000/" +:+ ToString image_path)
  else Null.

Definition populateForm : M unit :=
  let* therapist := gets therapist in
  if truthy therapist then
    console_log "Setting form values with therapist data:" ;;;
    let defaultValues : props :=
      [("full_name", or_else (member therapist "full_name") (Str ""));
       ("phone", or_else (member therapist "phone") (Str ""));
       ("email", or_else (member therapist "email") (Str ""));
       ("address", or_else (member therapist "address") (Str ""));
       ("nic_number", or_else (member therapist "nic_number") (Str ""));
       ("work_start_year",
         if truthy (member therapist "work_start_year")
         then Str (ToString (member therapist "work_start_year"))
         else Str "");
       ("image", Null)] in
    modify (set_formValues defaultValues) ;;;
    setInitialValues defaultValues ;;;
    setImagePreview (image_url (member therapist "image_path"))
  else ret tt.

(** *** The update mutation *)

(** [FormData.append]: files go as they are, anything else as a string. *)
Definition formData_append (formData : list (string * value)) (name : string)
    (v : value) : list (string * value) :=
  formData ++ [(name, match v with FileV f => FileV f | _ => Str (ToString v) end)].

(** [if (v) formData.append(name, v)] *)
Definition append_if_present (formData : list (string * value)) (name : string)
    (v : value) : list (string * value) :=
  if truthy v then formData_append formData name v else formData.

Definition mutationFn (data : value) (net : outcome) : M value :=
  let* token := localStorage_getItem "therapyToken" in
  if negb (truthy token) then throw (Error "Authentication token missing")
  else
    let formData : list (string * value) := [] in
    let* full_name := get data "full_name" in
    let formData := append_if_present formData "full_name" full_name in
    let* phone := get data "phone" in
    let formData := append_if_present formData "phone" phone in
    let* email := get data "email" in
    let formData := append_if_present formData "email" email in
    let* address := get data "address" in
    let formData := append_if_present formData "address" address in
    let* nic_number := get data "nic_number" in
    let formData := append_if_present formData "nic_number" nic_number in
    let* work_start_year := get data "work_start_year" in
    let formData := append_if_present formData "work_start_year" work_start_year in
    let* image := get data "image" in
    let formData := append_if_present formData "image" image in
    try_catch
      (let* id := gets therapistId in
       let* response :=
         axios_request
           (mkRequest "PUT" ("/api/therapists/" +:+ ToString id)
                      (Some ("Bearer " +:+ ToString token)) formData)
           (fun status => (200 <=? status) && (status <? 300))
           net in
       let '(mkResponse _ response_data) := response in
       ret response_data)
      (fun error =>
         console_error "Update error:" ;;;
         throw error).

Definition onSuccess (data : value) : M unit :=
  let updatedTherapist := or_else (opt_member data "data") data in
  let* id := gets therapistId in
  modify (setQueryData (queryKey id) updatedTherapist) ;;;
  let* image_path := get updatedTherapist "image_path" in
  (if truthy image_path
   then setImagePreview (Str (ToString image_path))
   else ret tt) ;;;
  let* values := gets formValues in
  setInitialValues values ;;;
  let* message := get data "message" in
  modify (push_toast (toast_success (or_else message (Str "Profile updated successfully")))) ;;;
  modify (invalidateQueries (queryKey id)).

Definition onError (error : exn) : M unit :=
  modify (push_toast
            (toast_error
               (or_else (exn_response_data_error error)
                  (or_else (exn_message error) (Str "Failed to update profile"))))).

(** [updateTherapist.mutate(data)]: [onSuccess] after a fulfilled
    [mutationFn]; [onError] when [mutationFn] rejects or [onSuccess]
    throws. *)
Definition mutate (data : value) (net : outcome) : M unit :=
  try_catch
    (let* result := mutationFn data net in onSuccess result)
    onError.

(** *** Handlers *)

Definition handleFieldChange (fieldName : string) (v : value) : M unit :=
  let* currentValues := gets formValues in
  let* initial := gets initialValues in
  if hasChanges [(fieldName, v)] [(fieldName, lookup_prop initial fieldName)]
  then console_log "Field changed:"
  else ret tt.

(** [ps[k] = v] on a property list. *)
Fixpoint set_prop (ps : props) (k : string) (v : value) : props :=
  match ps with
  | [] => [(k, v)]
  | (k', v') :: rest =>
      if String.eqb k' k then (k, v) :: rest else (k', v') :: set_prop rest k v
  end.

(** [field.onChange] of the [image] field. *)
Definition field_onChange (v : value) : M unit :=
  let* values := gets formValues in
  modify (set_formValues (set_prop values "image" v)).

(** [list.includes(x)] on strings. *)
Definition Array_includes (l : list string) (x : string) : bool :=
  existsb (String.eqb x) l.

Definition accepted_types : list string :=
  ["image/png"; "image/jpg"; "image/jpeg"; "image/gif"].

(** [file] is [event.target.files[0]]: [None] when no file is selected. *)
Definition handleImageChange (file : option File) : M unit :=
  match file with
  | Some file =>
      if (5 * 1024 * 1024 <? file_size file)%N then
        modify (push_toast (toast_error (Str "Image size must be less than 5MB")))
      else if negb (Array_includes accepted_types (file_type file)) then
        modify (push_toast
                  (toast_error (Str "Only PNG, JPG, JPEG, and GIF images are allowed")))
      else
        field_onChange (FileV file) ;;;
        let* previewUrl := createObjectURL file in
        setImagePreview (Str previewUrl)
  | None =>
      field_onChange Null ;;;
      let* therapist := gets therapist in
      setImagePreview (image_url (opt_member therapist "image_path"))
  end.

(** The state a handler leaves behind. *)
Definition exec {A} (m : M A) (st : state) : state := snd (m st).

(** Repeated fetches, one per pair of network answers. *)
Fixpoint fetches (answers : list (outcome * outcome)) (st : state) : state :=
  match answers with
  | [] => st
  | (first, second) :: rest => fetches rest (fetchTherapist first second st)
  end.

(** *** Vocabulary of the properties *)

(** An object in the sense of the loader's format check: truthy and of
    type [object]. *)
Definition is_object (v : value) : bool :=
  truthy v && String.eqb (typeof v) "object".

(** The integer that a string of decimal digits denotes. *)
Fixpoint decimal_value_from (acc : Z) (s : string) : Z :=
  match s with
  | String c rest => decimal_value_from (acc * 10 + (char_code c - 48)) rest
  | EmptyString => acc
  end.

Definition decimal_value (s : string) : Z := decimal_value_from 0 s.

(** The loader's two invalid-response errors. *)
Definition invalid_response (e : exn) : bool :=
  match e with
  | Error m =>
      String.eqb m "Invalid response: Received HTML from server"
      || String.eqb m "Invalid response format from server"
  | _ => false
  end.

(** A response body that carries the record [R]: wrapped as [{data: R}],
    or [R] itself, a record having no [data] of its own. *)
Definition carries (body R : value) : Prop :=
  (nullish body = false /\ member body "data" = R)
  \/ (body = R /\ truthy (member R "data") = false).

(** The image handler rejected the pick: an error notification was added,
    and the pending [image] value and the preview are as before. *)
Definition rejected (st st' : state) : Prop :=
  (exists msg, toasts st' = toasts st ++ [toast_error msg])
  /\ lookup_prop (formValues st') "image" = lookup_prop (formValues st) "image"
  /\ imagePreview st' = imagePreview st.

(** The submission failed: [mutationFn] rejected, or [onSuccess] threw. *)
Definition submission_fails (data : value) (net : outcome) (st : state) : Prop :=
  exists e st1, bind (mutationFn data net) onSuccess st = (Throw e, st1).

(** The state reached by [onSuccess] on a body that carries the record
    [R]. *)
Definition after_success (body R : value) (st : state) : state :=
  let key := queryKey (therapistId st) in
  let st1 := setQueryData key R st in
  let st2 := if truthy (member R "image_path")
             then set_imagePreview (Str (ToString (member R "image_path"))) st1
             else st1 in
  let st3 := set_initialValues (formValues st2) st2 in
  let st4 := push_toast
               (toast_success (or_else (member body "message")
                                       (Str "Profile updated successfully"))) st3 in
  invalidateQueries key st4.

(** The cells a failed submission must leave alone. *)
Definition same_form (st st' : state) : Prop :=
  toasts st' = toasts st
  /\ formValues st' = formValues st
  /\ initialValues st' = initialValues st.

(** A mounted panel whose identifier is resolved to 7, with a token stored. *)
Definition sample_state : state :=
  set_therapistId (Num 7) (mount (<["therapyToken" := "with-id"]> ∅)).

(** *** The panel as a machine of events *)

(** The text fields of the form. *)
Inductive text_field :=
| FullName
| Phone
| Email
| Address
| NicNumber
| WorkStartYear.

Definition field_key (f : text_field) : string :=
  match f with
  | FullName => "full_name"
  | Phone => "phone"
  | Email => "email"
  | Address => "address"
  | NicNumber => "nic_number"
  | WorkStartYear => "work_start_year"
  end.

(** What can happen to a mounted panel: its effects run, the query
    fetches, a submission is made, the user types in a field or leaves it,
    or picks (or clears) an image. *)
Inductive event :=
| EvResolve
| EvFetch (first second : outcome)
| EvPopulate
| EvMutate (data : value) (net : outcome)
| EvInput (f : text_field) (text : string)
| EvBlur (f : text_field)
| EvImageChange (file : option File).

(** [field.onChange] of a text field: the typed text becomes the field's
    value. *)
Definition text_onChange (f : text_field) (text : string) : M unit :=
  let* values := gets formValues in
  modify (set_formValues (set_prop values (field_key f) (Str text))).

Definition step (ev : event) (st : state) : state :=
  match ev with
  | EvResolve => exec resolveTherapistId st
  | EvFetch first second => fetchTherapist first second st
  | EvPopulate => exec populateForm st
  | EvMutate data net => exec (mutate data net) st
  | EvInput f text => exec (text_onChange f text) st
  | EvBlur f =>
      exec (handleFieldChange (field_key f) (lookup_prop (formValues st) (field_key f))) st
  | EvImageChange file => exec (handleImageChange file) st
  end.

Fixpoint run (evs : list event) (st : state) : state :=
  match evs with
  | [] => st
  | ev :: rest => run rest (step ev st)
  end.

(** *** Releasing the preview (the cleanup of the effect on [imagePreview]) *)

(** [s.startsWith(p)]. *)
Definition startsWith (s p : string) : bool := String.prefix p s.

(** The cleanup: the reference it passes to [URL.revokeObjectURL], if any.
    [startsWith] exists on strings only. *)
Definition imagePreview_cleanup (st : state) : result (option string) :=
  if truthy (imagePreview st) then
    match imagePreview st with
    | Str s => if startsWith s "blob:" then Ok (Some s) else Ok None
    | _ => Throw (TypeError "imagePreview.startsWith is not a function")
    end
  else Ok None.

(** *** More vocabulary *)

(** The names of the form's fields, in the order of [defaultValues]. *)
Definition form_fields : list string :=
  ["full_name"; "phone"; "email"; "address"; "nic_number"; "work_start_year"; "image"].

(** [st'] differs from [st] at most in the requests sent and the console. *)
Definition only_io (st st' : state) : Prop :=
  imagePreview st' = imagePreview st
  /\ therapistId st' = therapistId st
  /\ initialValues st' = initialValues st
  /\ formValues st' = formValues st
  /\ queryCache st' = queryCache st
  /\ localStorage st' = localStorage st
  /\ toasts st' = toasts st
  /\ objectURLs st' = objectURLs st.

(** The preview holds [null] or a string. *)
Definition preview_typed (st : state) : Prop :=
  imagePreview st = Null \/ exists s, imagePreview st = Str s.



(** Every run of [m] relates the state before to the state after by [R]. *)
Definition preserves {A} (R : state -> state -> Prop) (m : M A) : Prop :=
  forall st, R st (snd (m st)).

(** The form has exactly its seven fields, in order. *)
Definition form_shaped (st : state) : Prop := (formValues st).*1 = form_fields.

(** The identifier is unresolved ([null]) or usable (truthy). *)
Definition id_resolved_or_null (st : state) : Prop :=
  therapistId st = Null \/ truthy (therapistId st) = true.


(** The component [proj] of the state is the same before and after. *)
Definition kept {A} (proj : state -> A) (st st' : state) : Prop := proj st' = proj st.


(** The payload the loader takes from a response body. *)
Definition unwrapped (body : value) : value := or_else (opt_member body "data") body.

(** The status of the current identifier's cache entry, if there is one. *)
Definition query_status_of (st : state) : option query_status :=
  q_status <$> (queryCache st !! hashKey (queryKey (therapistId st))).

(** How [FormData] stores a value: files as they are, the rest as strings. *)
Definition formData_value (v : value) : value :=
  match v with
  | FileV f => FileV f
  | _ => Str (ToString v)
  end.

(** The multipart entries an update of [data] should carry: one per field
    of [data] that is present (truthy), in the order of the form. *)
Definition payload_of (data : value) : list (string * value) :=
  flat_map (fun name =>
              if truthy (member data name)
              then [(name, formData_value (member data name))]
              else [])
           form_fields.

(** The update request of [data] for the identifier [id] under [token]. *)
Definition update_request (id : value) (token : string) (data : value) : request :=
  mkRequest "PUT" ("/api/therapists/" +:+ ToString id)
            (Some ("Bearer " +:+ token)) (payload_of data).

(** An invariant [I], read as a relation between the state before and
    after. *)
Definition keeps (I : state -> Prop) (st st' : state) : Prop := I st -> I st'.

(** Every character of [s] is a decimal digit. *)
Definition all_digits (s : string) : bool := forallb is_digit (list_ascii_of_string s).

(** Every character of [s] is ASCII, so that its length in bytes is its
    length in JavaScript. *)
Definition is_ascii_string (s : string) : bool :=
  forallb (fun c => char_code c <? 128) (list_ascii_of_string s).

(** *** Regular expressions: the patterns of the rules *)

(** The fragment of JavaScript's regular expressions the rules use:
    character classes, sequence, alternation and repetition.  A pattern
    written [/^r$/] has to match the whole string. *)
Inductive regex :=
| Never
| Eps
| Class (p : ascii -> bool)
| Seq (r1 r2 : regex)
| Alt (r1 r2 : regex)
| Star (r : regex).

(** [r+] *)
Definition Plus (r : regex) : regex := Seq r (Star r).

(** Does [r] match the empty string? *)
Fixpoint nullable (r : regex) : bool :=
  match r with
  | Never => false
  | Eps => true
  | Class _ => false
  | Seq r1 r2 => nullable r1 && nullable r2
  | Alt r1 r2 => nullable r1 || nullable r2
  | Star _ => true
  end.

(** What is left of [r] to match after the character [c]. *)
Fixpoint deriv (c : ascii) (r : regex) : regex :=
  match r with
  | Never => Never
  | Eps => Never
  | Class p => if p c then Eps else Never
  | Seq r1 r2 =>
      if nullable r1
      then Alt (Seq (deriv c r1) r2) (deriv c r2)
      else Seq (deriv c r1) r2
  | Alt r1 r2 => Alt (deriv c r1) (deriv c r2)
  | Star r1 => Seq (deriv c r1) (Star r1)
  end.

(** [/^r$/.test(s)] *)
Fixpoint regex_test (r : regex) (s : string) : bool :=
  match s with
  | EmptyString => nullable r
  | String c rest => regex_test (deriv c r) rest
  end.

(** The strings (as lists of characters) that [r] denotes. *)
Inductive Matches : regex -> list ascii -> Prop :=
| MEps : Matches Eps []
| MClass (p : ascii -> bool) (c : ascii) : p c = true -> Matches (Class p) [c]
| MSeq (r1 r2 : regex) (l1 l2 : list ascii) :
    Matches r1 l1 -> Matches r2 l2 -> Matches (Seq r1 r2) (l1 ++ l2)
| MAltL (r1 r2 : regex) (l : list ascii) : Matches r1 l -> Matches (Alt r1 r2) l
| MAltR (r1 r2 : regex) (l : list ascii) : Matches r2 l -> Matches (Alt r1 r2) l
| MStarNil (r : regex) : Matches (Star r) []
| MStarApp (r : regex) (l1 l2 : list ascii) :
    Matches r l1 -> Matches (Star r) l2 -> Matches (Star r) (l1 ++ l2).

(** [[a-zA-Z]] *)
Definition is_letter (c : ascii) : bool :=
  ((97 <=? char_code c) && (char_code c <=? 122))
  || ((65 <=? char_code c) && (char_code c <=? 90)).

(** [[a-zA-Z0-9._%+-]] *)
Definition email_local_char (c : ascii) : bool :=
  is_letter c || is_digit c
  || Ascii.eqb c "." || Ascii.eqb c "_" || Ascii.eqb c "%" || Ascii.eqb c "+"
  || Ascii.eqb c "-".

(** [[a-zA-Z0-9.-]] *)
Definition email_domain_char (c : ascii) : bool :=
  is_letter c || is_digit c || Ascii.eqb c "." || Ascii.eqb c "-".

(** [/^[a-zA-Z0-9._%+-]+@[a-zA-Z0-9.-]+\.[a-zA-Z]{2,}$/] *)
Definition email_pattern : regex :=
  Seq (Plus (Class email_local_char))
   (Seq (Class (Ascii.eqb "@"))
     (Seq (Plus (Class email_domain_char))
       (Seq (Class (Ascii.eqb "."))
         (Seq (Class is_letter) (Seq (Class is_letter) (Star (Class is_letter))))))).

Definition email_rules : rules :=
  mkRules (Some "Email is required") None
          (Some (regex_test email_pattern, "Invalid email address")) None.

(** [/^\d{4}$/], as a regular expression. *)
Definition year_pattern : regex :=
  Seq (Class is_digit) (Seq (Class is_digit) (Seq (Class is_digit) (Class is_digit))).

(** Every character of [s] satisfies [p]. *)
Definition all_chars (p : ascii -> bool) (s : string) : bool :=
  forallb p (list_ascii_of_string s).

(** The sample panel after a first successful fetch of [sample_record]. *)
Definition sample_loaded : state :=
  fetchTherapist (Responds (mkResponse 200 sample_record)) NetworkFailure sample_state.


(** * Properties *)

Set Default Proof Using "Type".

(** ** Values *)


Lemma Array_includes_elem_of (l : list string) (x : string) :
  Array_includes l x = true <-> x ∈ l.
Proof.
  unfold Array_includes. induction l as [|y l IH]; simpl.
  - split; [discriminate | intros H; inversion H].
  - rewrite orb_true_iff, IH, elem_of_cons, String.eqb_eq. reflexivity.
Qed.

(** ** [hasChanges] *)

Lemma hasChanges_loop_true (keys : list string) (current initial : props) :
  hasChanges_loop keys current initial = true <->
  exists key, key ∈ keys /\
    strict_eq (lookup_prop current key) (lookup_prop initial key) = false.
Proof.
  induction keys as [|k keys IH]; simpl.
  - split; [discriminate | intros (key & Hin & _); inversion Hin].
  - destruct (strict_eq (lookup_prop current k) (lookup_prop initial k)) eqn:Hk;
      simpl; destruct (String.eqb k "image"); rewrite ?IH; split;
      try (intros (key & Hin & Hne); exists key; split;
           [apply elem_of_cons; auto | exact Hne]);
      try (intros _; exists k; split; [apply elem_of_cons; auto | exact Hk]);
      try (intros (key & Hin & Hne); apply elem_of_cons in Hin as [->|Hin];
           [congruence | exists key; auto]);
      auto.
Qed.

(** C9. When every field of [current] is strictly equal ([===]: values for
    strings and other primitives, identity for a [File] or any object) to
    the field of the same name in [initial], [hasChanges current initial]
    is [false]. *)
Theorem hasChanges_unchanged (current initial : props) :
  (forall key, key ∈ Object_keys current ->
     strict_eq (lookup_prop current key) (lookup_prop initial key) = true) ->
  hasChanges current initial = false.
Proof.
  intros Hsame. unfold hasChanges.
  destruct (hasChanges_loop (Object_keys current) current initial) eqn:Hloop; [|reflexivity].
  apply hasChanges_loop_true in Hloop as (key & Hin & Hne).
  rewrite (Hsame key Hin) in Hne. discriminate.
Qed.

(** The [email] example of C9. *)
Lemma hasChanges_unchanged_witness :
  hasChanges [("email", Str "a@b.com")] [("email", Str "a@b.com")] = false.
Proof.
  apply (hasChanges_unchanged [("email", Str "a@b.com")] [("email", Str "a@b.com")]).
  intros key Hin. vm_compute in Hin. apply list_elem_of_singleton in Hin.
  subst key. reflexivity.
Defined.

(** ** Validation *)

Lemma is_digit_cases (c : ascii) :
  is_digit c = true ->
  c ∈ ["0"; "1"; "2"; "3"; "4"; "5"; "6"; "7"; "8"; "9"]%char.
Proof.
  destruct c as [[] [] [] [] [] [] [] []]; intros H;
    try (vm_compute in H; discriminate H); clear H;
    apply list_elem_of_In; simpl;
    repeat (first [left; reflexivity | right]).
Qed.

Lemma digit_value_decimal (c : ascii) :
  is_digit c = true -> digit_value 10 c = Some (char_code c - 48).
Proof.
  intros H. apply is_digit_cases in H.
  repeat (apply elem_of_cons in H as [->|H]; [reflexivity|]).
  inversion H.
Qed.



Lemma all_digits_parse (s : string) (acc : Z) :
  forallb is_digit (list_ascii_of_string s) = true ->
  parse_digits 10 s (Some acc) = Some (decimal_value_from acc s).
Proof.
  revert acc. induction s as [|c s IH]; intros acc H; simpl in *; [reflexivity|].
  apply andb_prop in H as [Hc Hs].
  rewrite (digit_value_decimal c Hc). simpl. apply IH, Hs.
Qed.

Lemma all_digits_parse_first (c : ascii) (s : string) :
  forallb is_digit (list_ascii_of_string (String c s)) = true ->
  parse_digits 10 (String c s) None = Some (decimal_value (String c s)).
Proof.
  intros H. simpl in H. apply andb_prop in H as [Hc Hs].
  simpl. rewrite (digit_value_decimal c Hc). simpl.
  rewrite (all_digits_parse s _ Hs). reflexivity.
Qed.

Lemma skip_whitespace_digit (c : ascii) (s : string) :
  is_digit c = true -> skip_whitespace (String c s) = String c s.
Proof.
  intros H. apply is_digit_cases in H.
  repeat (apply elem_of_cons in H as [->|H]; [reflexivity|]).
  inversion H.
Qed.

Lemma parseInt_four_digits (s : string) :
  four_digit_pattern s = true -> parseInt s = Some (decimal_value s).
Proof.
  destruct s as [|a [|b [|c [|d [|e s]]]]]; simpl; try discriminate.
  intros H.
  assert (Hall : forallb is_digit
                   (list_ascii_of_string (String a (String b (String c (String d "")))))
                 = true).
  { simpl. rewrite andb_true_r, !andb_assoc. exact H. }
  apply all_digits_parse_first in Hall.
  apply andb_prop in H as [H _]. apply andb_prop in H as [H _].
  apply andb_prop in H as [Ha Hb].
  unfold parseInt. rewrite (skip_whitespace_digit a _ Ha).
  apply is_digit_cases in Ha, Hb.
  repeat (apply elem_of_cons in Ha as [->|Ha]);
    try (inversion Ha; fail);
    repeat (apply elem_of_cons in Hb as [->|Hb]);
    try (inversion Hb; fail);
    cbv beta iota zeta; rewrite Hall; f_equal; lia.
Qed.

Lemma not_after_four_digits (currentYear : Z) (s : string) :
  four_digit_pattern s = true ->
  not_after currentYear s = (decimal_value s <=? currentYear).
Proof. intros H. unfold not_after. rewrite (parseInt_four_digits s H). reflexivity. Qed.

(** C7. With current year 2025 the [work_start_year] rules fail "2031"
    with the future-year message, fail "abcd" with the 4-digit-pattern
    message and pass "1999"; for any current year, a value passes exactly
    when it is non-empty, matches [/^\d{4}$/] and denotes an integer that
    does not exceed the current year. *)
Theorem work_start_year_validation :
  validateField (work_start_year_rules 2025) "2031"
    = Some (mkFieldError "validate" "Work start year cannot be in the future")
  /\ validateField (work_start_year_rules 2025) "abcd"
    = Some (mkFieldError "pattern" "Enter a valid 4-digit year")
  /\ validateField (work_start_year_rules 2025) "1999" = None
  /\ forall (currentYear : Z) (v : string),
       validateField (work_start_year_rules currentYear) v = None <->
       v <> "" /\ four_digit_pattern v = true /\ decimal_value v <= currentYear.
Proof.
  split; [reflexivity|]. split; [reflexivity|]. split; [reflexivity|].
  intros currentYear v. unfold validateField, work_start_year_rules. cbn [required minLength pattern validate first_error].
  destruct (String.eqb_spec v "") as [->|Hne]; simpl.
  { split; [discriminate | intros [H _]; congruence]. }
  destruct (four_digit_pattern v) eqn:Hpat; simpl.
  - rewrite (not_after_four_digits currentYear v Hpat).
    destruct (Z.leb_spec (decimal_value v) currentYear) as [Hle|Hgt]; simpl.
    + split; auto.
    + split; [discriminate | intros (_ & _ & H); lia].
  - split; [discriminate | intros (_ & H & _); discriminate].
Qed.

(** ** Image selection *)

Lemma lookup_set_prop (ps : props) (k : string) (v : value) :
  lookup_prop (set_prop ps k v) k = v.
Proof.
  induction ps as [|[k' v'] ps IH]; simpl.
  - rewrite String.eqb_refl. reflexivity.
  - destruct (String.eqb k' k) eqn:Hk; simpl.
    + rewrite String.eqb_refl. reflexivity.
    + rewrite Hk. exact IH.
Qed.

Lemma not_snoc {A} (l : list A) (x : A) : l <> l ++ [x].
Proof.
  intros H. apply (f_equal length) in H. rewrite length_app in H. simpl in H. lia.
Qed.

Lemma handleImageChange_too_big (f : File) (st : state) :
  (5 * 1024 * 1024 < file_size f)%N ->
  exec (handleImageChange (Some f)) st
  = push_toast (toast_error (Str "Image size must be less than 5MB")) st.
Proof.
  intros H. unfold exec, handleImageChange.
  destruct (N.ltb_spec (5 * 1024 * 1024) (file_size f)); [reflexivity | lia].
Qed.

Lemma handleImageChange_wrong_type (f : File) (st : state) :
  (file_size f <= 5 * 1024 * 1024)%N ->
  file_type f ∉ accepted_types ->
  exec (handleImageChange (Some f)) st
  = push_toast (toast_error (Str "Only PNG, JPG, JPEG, and GIF images are allowed")) st.
Proof.
  intros Hsize Hty. unfold exec, handleImageChange.
  destruct (N.ltb_spec (5 * 1024 * 1024) (file_size f)); [lia|].
  destruct (Array_includes accepted_types (file_type f)) eqn:Hin; [|reflexivity].
  apply Array_includes_elem_of in Hin. contradiction.
Qed.

Lemma handleImageChange_accepted (f : File) (st : state) :
  (file_size f <= 5 * 1024 * 1024)%N ->
  file_type f ∈ accepted_types ->
  exec (handleImageChange (Some f)) st
  = set_imagePreview (Str ("blob:" +:+ pretty (objectURLs st)))
      (bump_objectURLs (set_formValues (set_prop (formValues st) "image" (FileV f)) st)).
Proof.
  intros Hsize Hty. unfold exec, handleImageChange.
  destruct (N.ltb_spec (5 * 1024 * 1024) (file_size f)); [lia|].
  apply Array_includes_elem_of in Hty. rewrite Hty. reflexivity.
Qed.

(** C6. For every selected file, [handleImageChange] rejects it (an error
    notification, the pending [image] value and the preview unchanged)
    exactly when its size exceeds 5 MiB or its type is not one of
    image/png, image/jpg, image/jpeg, image/gif.  A gif of exactly 5 MiB is
    not rejected and becomes the pending [image] value; a file of
    5 MiB + 1 byte is rejected; a webp file is rejected. *)
Theorem handleImageChange_rejects_iff (st : state) :
  (forall f : File,
     rejected st (exec (handleImageChange (Some f)) st) <->
     (5 * 1024 * 1024 < file_size f)%N \/ file_type f ∉ accepted_types)
  /\ (forall id name,
        let gif := mkFile id name (5 * 1024 * 1024) "image/gif" in
        ~ rejected st (exec (handleImageChange (Some gif)) st)
        /\ lookup_prop (formValues (exec (handleImageChange (Some gif)) st)) "image"
           = FileV gif)
  /\ (forall id name ty, rejected st
        (exec (handleImageChange (Some (mkFile id name (5 * 1024 * 1024 + 1) ty))) st))
  /\ (forall id name size, rejected st
        (exec (handleImageChange (Some (mkFile id name size "image/webp"))) st)).
Proof.
  assert (Hiff : forall f : File,
     rejected st (exec (handleImageChange (Some f)) st) <->
     (5 * 1024 * 1024 < file_size f)%N \/ file_type f ∉ accepted_types).
  { intros f. split.
    - intros [[msg Htoast] _].
      destruct (N.ltb_spec (5 * 1024 * 1024) (file_size f)) as [Hbig|Hsmall]; [left; exact Hbig|].
      right. intros Hin.
      rewrite (handleImageChange_accepted f st Hsmall Hin) in Htoast. simpl in Htoast.
      exact (not_snoc _ _ Htoast).
    - intros Hbad.
      destruct (N.ltb_spec (5 * 1024 * 1024) (file_size f)) as [Hbig|Hsmall].
      + rewrite (handleImageChange_too_big f st Hbig).
        split; [eexists; reflexivity | split; reflexivity].
      + destruct Hbad as [Hbig|Hty]; [lia|].
        rewrite (handleImageChange_wrong_type f st Hsmall Hty).
        split; [eexists; reflexivity | split; reflexivity]. }
  split; [exact Hiff|]. split; [|split].
  - intros id name gif.
    assert (Hty : file_type gif ∈ accepted_types).
    { apply Array_includes_elem_of. reflexivity. }
    split.
    + intros Hrej. apply Hiff in Hrej. destruct Hrej as [Hbig|Hbad].
      * simpl in Hbig. lia.
      * exact (Hbad Hty).
    + rewrite (handleImageChange_accepted gif st) by (simpl; lia || exact Hty).
      simpl. apply lookup_set_prop.
  - intros id name ty. apply Hiff. left. simpl. lia.
  - intros id name size. apply Hiff. right. simpl. unfold accepted_types.
    rewrite <- Array_includes_elem_of. vm_compute. discriminate.
Qed.

(** ** Identity resolution *)

Lemma stored_token_truthy (token : string) (decoded : value) :
  jwtDecode token = Some decoded -> truthy (Str token) = true.
Proof using jwtDecode_empty.
  intros H. simpl. destruct (String.eqb_spec token "") as [->|]; [|reflexivity].
  congruence.
Qed.

(** C3. When the stored token decodes to a payload whose [therapist_id]
    claim is a usable (truthy) value, the resolved identifier is that
    value; when no token is stored, and when decoding the stored token
    fails, the resolved identifier is the fallback 35. *)
Theorem resolveTherapistId_spec (st : state) :
  (forall token decoded,
     localStorage st !! "therapyToken" = Some token ->
     jwtDecode token = Some decoded ->
     truthy (opt_member decoded "therapist_id") = true ->
     therapistId (exec resolveTherapistId st) = member decoded "therapist_id")
  /\ (localStorage st !! "therapyToken" = None ->
      therapistId (exec resolveTherapistId st) = Num 35)
  /\ (forall token,
        localStorage st !! "therapyToken" = Some token ->
        jwtDecode token = None ->
        therapistId (exec resolveTherapistId st) = Num 35).
Proof using jwtDecode_empty.
  unfold exec, resolveTherapistId, localStorage_getItem, bind, gets, try_catch.
  split; [|split].
  - intros token decoded Hst Hdec Hid. rewrite Hst.
    rewrite (stored_token_truthy token decoded Hdec). simpl. rewrite Hdec. simpl.
    rewrite Hid. reflexivity.
  - intros Hst. rewrite Hst. reflexivity.
  - intros token Hst Hdec. rewrite Hst.
    destruct (truthy (Str token)); [|reflexivity].
    simpl. rewrite Hdec. reflexivity.
Qed.

Lemma fetches_disabled (answers : list (outcome * outcome)) (st : state) :
  enabled st = false -> fetches answers st = st.
Proof.
  intros H. induction answers as [|[first second] answers IH]; simpl; [reflexivity|].
  unfold fetchTherapist. rewrite H. exact IH.
Qed.

(** C10. When the stored token decodes but its payload has no usable
    [therapist_id] (an absent claim reads as [undefined], which is falsy),
    the resolver changes nothing: the identifier stays [null] and 35 is not
    used; the query is then disabled, and whatever the network would
    answer, any number of fetch attempts leaves the component in the very
    state it had, with no request issued. *)
Theorem resolver_without_claim (st : state) (token : string) (decoded : value)
    (answers : list (outcome * outcome)) :
  therapistId st = Null ->
  localStorage st !! "therapyToken" = Some token ->
  jwtDecode token = Some decoded ->
  truthy (opt_member decoded "therapist_id") = false ->
  resolveTherapistId st = (Ok tt, st)
  /\ therapistId (exec resolveTherapistId st) = Null
  /\ enabled (exec resolveTherapistId st) = false
  /\ fetches answers (exec resolveTherapistId st) = st
  /\ network (fetches answers (exec resolveTherapistId st)) = network st.
Proof using jwtDecode_empty.
  intros Hnull Hst Hdec Hid.
  assert (Hres : resolveTherapistId st = (Ok tt, st)).
  { unfold resolveTherapistId, localStorage_getItem, bind, gets, try_catch.
    rewrite Hst. rewrite (stored_token_truthy token decoded Hdec). simpl.
    rewrite Hdec. simpl. rewrite Hid. reflexivity. }
  assert (Hen : enabled st = false).
  { unfold enabled. rewrite Hnull. reflexivity. }
  unfold exec. rewrite Hres. simpl. rewrite (fetches_disabled answers st Hen).
  repeat split; assumption.
Qed.

(** ** The profile loader *)

Lemma is_object_cases (v : value) :
  is_object v = true ->
  (exists id es, v = Arr id es) \/ (exists id ps, v = Obj id ps) \/ (exists f, v = FileV f).
Proof.
  destruct v; try discriminate; eauto.
  - destruct b; discriminate.
  - unfold is_object. rewrite andb_comm. discriminate.
  - unfold is_object. rewrite andb_comm. discriminate.
Qed.

Lemma is_object_facts (v : value) :
  is_object v = true ->
  truthy v = true /\ typeof v = "object" /\ nullish v = false /\ v <> Undefined.
Proof.
  intros H. destruct (is_object_cases v H) as [(?&?&->)|[(?&?&->)|(?&->)]];
    repeat split; discriminate.
Qed.

(** What [queryFn] does with an answer that passes [validateStatus] and is
    not a 404, whose body is not a string. *)
Lemma queryFn_structured (s : Z) (body : value) (st : state) :
  s < 500 -> s <> 404 -> typeof body <> "string" ->
  fst (queryFn (Responds (mkResponse s body)) st)
  = fst (therapistData_of body st).
Proof.
  intros Hs H404 Hty.
  unfold queryFn, try_catch, bind, gets, axios_request, modify, console_log, ret. simpl.
  destruct (Z.ltb_spec s 500); [|lia]. simpl.
  destruct (Z.eqb_spec s 404); [lia|].
  destruct (String.eqb_spec (typeof body) "string"); [contradiction|]. simpl.
  unfold therapistData_of, bind, console_error, modify, throw, ret.
  destruct (negb (truthy (or_else (opt_member body "data") body))
            || negb (String.eqb (typeof (or_else (opt_member body "data") body)) "object"));
    reflexivity.
Qed.

Lemma therapistData_of_object (payload P : value) (st : state) :
  is_object P = true ->
  or_else (opt_member payload "data") payload = P ->
  therapistData_of payload st = (Ok P, st).
Proof.
  intros HP Hor. unfold therapistData_of. rewrite Hor.
  unfold is_object in HP. apply andb_prop in HP as [Ht Hty].
  rewrite Ht, Hty. reflexivity.
Qed.

(** C1, as the code has it.  For every object payload [P] and every answer
    the loader inspects (status below 500, not 404): the wrapped form, an
    object whose [data] is [P], normalizes to [P]; the bare [P] normalizes
    to [P] too when [P] has no truthy [data] of its own. *)
Theorem queryFn_wrapped_or_bare (P : value) (id : positive) (ps : props)
    (s : Z) (st : state) :
  is_object P = true ->
  lookup_prop ps "data" = P ->
  s < 500 -> s <> 404 ->
  fst (queryFn (Responds (mkResponse s (Obj id ps))) st) = Ok P
  /\ (truthy (member P "data") = false ->
      fst (queryFn (Responds (mkResponse s P)) st) = Ok P).
Proof.
  intros HP Hdata Hs H404.
  destruct (is_object_facts P HP) as (Ht & Hty & Hn & _).
  split.
  - rewrite queryFn_structured by (assumption || discriminate).
    rewrite (therapistData_of_object _ P); [reflexivity | exact HP |].
    unfold or_else, opt_member. simpl. rewrite Hdata, Ht. reflexivity.
  - intros Hbare.
    rewrite queryFn_structured by (assumption || (rewrite Hty; discriminate)).
    rewrite (therapistData_of_object _ P); [reflexivity | exact HP |].
    unfold or_else, opt_member. rewrite Hn, Hbare. reflexivity.
Qed.

(** The claim C1 as stated fails: the bare object [sample_nested], which
    has a [data] property, normalizes to that property's value, not to
    itself, although its wrapped form normalizes to it. *)
Lemma queryFn_bare_with_data_key :
  is_object sample_nested = true
  /\ fst (queryFn (Responds (mkResponse 200 (Obj 5 [("data", sample_nested)]))) sample_state)
     = Ok sample_nested
  /\ fst (queryFn (Responds (mkResponse 200 sample_nested)) sample_state)
     = Ok (Obj 21 [("full_name", Str "A. Perera")])
  /\ fst (queryFn (Responds (mkResponse 200 sample_nested)) sample_state)
     <> Ok sample_nested.
Proof.
  split; [reflexivity|]. split; [reflexivity|]. split; [reflexivity|].
  vm_compute. discriminate.
Qed.

(** A string body never comes back as a record, whatever the status. *)
Lemma queryFn_string_body_throws (s : Z) (body : string) (st : state) :
  exists e, fst (queryFn (Responds (mkResponse s (Str body))) st) = Throw e.
Proof.
  unfold queryFn, try_catch, bind, gets, axios_request, modify, console_log, ret, throw.
  simpl.
  destruct (s <? 500); simpl; [|eauto].
  destruct (s =? 404); simpl; [eauto|].
  destruct (includes body "<!doctype html"); simpl; [eauto|].
  unfold therapistData_of, or_else, opt_member. simpl.
  destruct (String.eqb body ""); simpl; eauto.
Qed.

(** C4, as the code has it.  For every answer with a status below 500
    other than 404 whose body is a string (an HTML document in particular),
    the loader throws one of its two invalid-response errors: the HTML one
    when the body contains ["<!doctype html"], the format one otherwise. *)
Theorem queryFn_string_body_invalid (s : Z) (body : string) (st : state) :
  s < 500 -> s <> 404 ->
  fst (queryFn (Responds (mkResponse s (Str body))) st)
  = Throw (Error (if includes body "<!doctype html"
                  then "Invalid response: Received HTML from server"
                  else "Invalid response format from server"))
  /\ exists e, fst (queryFn (Responds (mkResponse s (Str body))) st) = Throw e
               /\ invalid_response e = true.
Proof.
  intros Hs H404.
  assert (H : fst (queryFn (Responds (mkResponse s (Str body))) st)
              = Throw (Error (if includes body "<!doctype html"
                              then "Invalid response: Received HTML from server"
                              else "Invalid response format from server"))).
  { unfold queryFn, try_catch, bind, gets, axios_request, modify, console_log, ret, throw.
    simpl.
    destruct (Z.ltb_spec s 500); [|lia]. simpl.
    destruct (Z.eqb_spec s 404); [lia|]. simpl.
    destruct (includes body "<!doctype html"); simpl; [reflexivity|].
    unfold therapistData_of, or_else, opt_member. simpl.
    destruct (String.eqb body ""); reflexivity. }
  split; [exact H|]. eexists. split; [exact H|].
  destruct (includes body "<!doctype html"); reflexivity.
Qed.

(** The claim C4 as stated fails: an HTML body under status 404 is
    reported as a missing profile, not as an invalid response. *)
Lemma queryFn_html_404_not_found :
  fst (queryFn (Responds (mkResponse 404 (Str "<!doctype html><html><body>Cannot GET</body></html>")))
               sample_state)
  = Throw (Error "Therapist profile not found")
  /\ invalid_response (Error "Therapist profile not found") = false.
Proof. split; reflexivity. Qed.

(** ** The update mutation *)

Lemma carries_unwrap (body R : value) :
  is_object R = true -> carries body R ->
  or_else (opt_member body "data") body = R /\ nullish body = false.
Proof.
  intros HR Hc. destruct (is_object_facts R HR) as (Ht & _ & Hn & _).
  unfold or_else, opt_member. destruct Hc as [[Hnb Hdata]|[-> Hfalsy]].
  - rewrite Hnb, Hdata, Ht. auto.
  - rewrite Hn, Hfalsy. auto.
Qed.

Lemma onSuccess_carries (body R : value) (st : state) :
  is_object R = true -> carries body R ->
  onSuccess body st = (Ok tt, after_success body R st).
Proof.
  intros HR Hc. destruct (carries_unwrap body R HR Hc) as [Hun Hnb].
  destruct (is_object_facts R HR) as (_ & _ & Hn & _).
  unfold onSuccess, after_success. rewrite Hun.
  unfold bind, gets, modify, get, setImagePreview, setInitialValues, ret.
  rewrite Hn, Hnb. simpl.
  destruct (truthy (member R "image_path")); reflexivity.
Qed.

Lemma setQueryData_same_cells (key : list value) (v : value) (st : state) :
  therapistId (setQueryData key v st) = therapistId st
  /\ formValues (setQueryData key v st) = formValues st
  /\ initialValues (setQueryData key v st) = initialValues st
  /\ toasts (setQueryData key v st) = toasts st
  /\ imagePreview (setQueryData key v st) = imagePreview st.
Proof. destruct v; repeat split. Qed.

(** Invalidation touches the cache and the request log only. *)
Lemma invalidateQueries_cells (key : list value) (st : state) :
  therapistId (invalidateQueries key st) = therapistId st
  /\ formValues (invalidateQueries key st) = formValues st
  /\ initialValues (invalidateQueries key st) = initialValues st
  /\ toasts (invalidateQueries key st) = toasts st
  /\ imagePreview (invalidateQueries key st) = imagePreview st
  /\ objectURLs (invalidateQueries key st) = objectURLs st.
Proof. unfold invalidateQueries. destruct (_ && _); repeat split. Qed.

Lemma invalidateQueries_queryCache (key : list value) (st : state) :
  queryCache (invalidateQueries key st) = map_imap (invalidated key) (queryCache st).
Proof. unfold invalidateQueries. destruct (_ && _); reflexivity. Qed.

(** The one request invalidation may send is the refetch of the mounted
    query. *)
Lemma invalidateQueries_network (key : list value) (st : state) :
  network (invalidateQueries key st)
  = network st
    ++ (if truthy (therapistId st) && queryMatches key (hashKey (queryKey (therapistId st)))
        then [read_request (therapistId st)] else []).
Proof.
  unfold invalidateQueries. destruct (_ && _); [reflexivity|].
  simpl. rewrite app_nil_r. reflexivity.
Qed.

(** Invalidation keeps every entry's data and status. *)
Lemma invalidateQueries_lookup (key : list value) (st : state) (k : string) :
  queryCache (invalidateQueries key st) !! k
  = (fun q => if queryMatches key k then mkQuery (q_data q) (q_status q) true else q)
      <$> (queryCache st !! k).
Proof.
  rewrite invalidateQueries_queryCache, map_lookup_imap.
  destruct (queryCache st !! k); reflexivity.
Qed.

Lemma therapist_invalidateQueries (key : list value) (st : state) :
  therapist (invalidateQueries key st) = therapist st.
Proof.
  unfold therapist. destruct (invalidateQueries_cells key st) as (-> & _).
  rewrite invalidateQueries_lookup.
  destruct (queryCache st !! _); [|reflexivity].
  simpl. destruct (queryMatches _ _); reflexivity.
Qed.

Lemma therapist_after_success (body R : value) (st : state) :
  is_object R = true -> therapist (after_success body R st) = R.
Proof.
  intros HR. destruct (is_object_facts R HR) as (_ & _ & _ & Hundef).
  unfold after_success. rewrite therapist_invalidateQueries. unfold therapist.
  destruct (setQueryData_same_cells (queryKey (therapistId st)) R st) as (Hid & _).
  destruct (truthy (member R "image_path")); simpl; rewrite Hid;
    unfold setQueryData;
    destruct R; try congruence; simpl; rewrite lookup_insert_eq; reflexivity.
Qed.

(** C2, as the code has it.  When the response body carries the object
    [R], wrapped as [{data: R}], or as [R] itself provided [R] has no truthy
    [data] of its own, [onSuccess] completes, the cache entry of the current
    identifier holds [R] (so its [nic_number] is the returned one), and the
    snapshot [initialValues] is the form's current values, which are
    unchanged. *)
Theorem onSuccess_updates_cache (body R : value) (st : state) :
  is_object R = true ->
  carries body R ->
  fst (onSuccess body st) = Ok tt
  /\ therapist (exec (onSuccess body) st) = R
  /\ member (therapist (exec (onSuccess body) st)) "nic_number" = member R "nic_number"
  /\ initialValues (exec (onSuccess body) st) = formValues (exec (onSuccess body) st)
  /\ formValues (exec (onSuccess body) st) = formValues st.
Proof.
  intros HR Hc. unfold exec. rewrite (onSuccess_carries body R st HR Hc). simpl.
  pose proof (therapist_after_success body R st HR) as Hth.
  split; [reflexivity|]. split; [exact Hth|]. split; [rewrite Hth; reflexivity|].
  unfold after_success.
  match goal with
  | |- context [invalidateQueries ?key ?st4] =>
      destruct (invalidateQueries_cells key st4) as (_ & -> & -> & _)
  end.
  destruct (setQueryData_same_cells (queryKey (therapistId st)) R st) as (_ & Hf & _).
  destruct (truthy (member R "image_path")); simpl; rewrite Hf; auto.
Qed.

(** ** Image preview *)

Lemma populateForm_preview (st : state) :
  truthy (therapist st) = true ->
  imagePreview (exec populateForm st) = image_url (member (therapist st) "image_path").
Proof.
  intros Ht. unfold exec, populateForm, bind, gets. rewrite Ht. reflexivity.
Qed.


Lemma populateForm_after_onSuccess (p : string) (body R : value) (st : state) :
  p <> "" -> is_object R = true -> carries body R ->
  member R "image_path" = Str p ->
  imagePreview (exec populateForm (exec (onSuccess body) st)) = Str (baseURL +:+ "/" +:+ p).
Proof.
  intros Hp HR Hc Hpath.
  destruct (is_object_facts R HR) as (Ht & _).
  unfold exec at 2. rewrite (onSuccess_carries body R st HR Hc). simpl.
  pose proof (therapist_after_success body R st HR) as Hth.
  rewrite populateForm_preview by (rewrite Hth; exact Ht).
  rewrite Hth, Hpath. unfold image_url. simpl.
  destruct (String.eqb_spec p ""); [contradiction | reflexivity].
Qed.

(** ** Failed submissions *)

Lemma mutationFn_no_token (data : value) (net : outcome) (st : state) :
  localStorage st !! "therapyToken" = None ->
  mutationFn data net st = (Throw (Error "Authentication token missing"), st).
Proof.
  intros H. unfold mutationFn, bind, localStorage_getItem, gets. rewrite H. reflexivity.
Qed.

Lemma mutationFn_same_form (data : value) (net : outcome) (st : state) :
  same_form st (snd (mutationFn data net st)).
Proof.
  unfold mutationFn, bind, localStorage_getItem, gets, same_form.
  destruct (localStorage st !! "therapyToken") as [token|]; simpl; [|auto].
  destruct (negb (String.eqb token "")); simpl; [|auto].
  unfold get. destruct (nullish data); simpl; [auto|].
  unfold try_catch, bind, gets, axios_request, modify, console_error, throw, ret. simpl.
  destruct net as [|[s d]]; simpl; [auto|].
  destruct ((200 <=? s) && (s <? 300)); simpl; auto.
Qed.

Lemma onSuccess_throw_same_form (body : value) (st st1 : state) (e : exn) :
  onSuccess body st = (Throw e, st1) -> same_form st st1.
Proof.
  unfold onSuccess, bind, gets, modify, get, setImagePreview, setInitialValues, ret, throw.
  simpl.
  destruct (nullish (or_else (opt_member body "data") body)) eqn:Hn; simpl.
  - intros H. injection H as _ <-.
    destruct (setQueryData_same_cells (queryKey (therapistId st))
                (or_else (opt_member body "data") body) st) as (_ & Hf & Hi & Ht & _).
    unfold same_form. auto.
  - assert (Hb : nullish body = false).
    { destruct body; try reflexivity; discriminate Hn. }
    rewrite Hb.
    destruct (truthy (member (or_else (opt_member body "data") body) "image_path"));
      simpl; discriminate.
Qed.

(** C8. When no token is stored, [mutationFn] throws the authentication
    error at once, with the state (and so the list of requests issued)
    untouched, and the submission counts as failed.  For every failed
    submission, this one or any other, [mutate] adds exactly one
    notification, an error one, and leaves the form's values and the
    snapshot as they were. *)
Theorem mutate_failure (data : value) (net : outcome) (st : state) :
  (localStorage st !! "therapyToken" = None ->
   mutationFn data net st = (Throw (Error "Authentication token missing"), st)
   /\ network (exec (mutate data net) st) = network st
   /\ submission_fails data net st)
  /\ (submission_fails data net st ->
      (exists msg, toasts (exec (mutate data net) st) = toasts st ++ [toast_error msg])
      /\ formValues (exec (mutate data net) st) = formValues st
      /\ initialValues (exec (mutate data net) st) = initialValues st).
Proof.
  split.
  - intros Htok. pose proof (mutationFn_no_token data net st Htok) as Hm.
    split; [exact Hm|]. split.
    + unfold exec, mutate, try_catch, bind. rewrite Hm. reflexivity.
    + exists (Error "Authentication token missing"), st. unfold bind. rewrite Hm. reflexivity.
  - intros (e & st1 & Hfail).
    assert (Hsame : same_form st st1).
    { unfold bind in Hfail. pose proof (mutationFn_same_form data net st) as Hm.
      destruct (mutationFn data net st) as [[r|e0] st0] eqn:Hmf; simpl in Hm.
      - apply onSuccess_throw_same_form in Hfail.
        destruct Hm as (? & ? & ?), Hfail as (? & ? & ?).
        unfold same_form. repeat split; congruence.
      - injection Hfail as _ <-. exact Hm. }
    destruct Hsame as (Ht & Hf & Hi).
    unfold exec, mutate, try_catch.
    change (bind (mutationFn data net) (fun result => onSuccess result) st)
      with (bind (mutationFn data net) onSuccess st).
    rewrite Hfail. simpl.
    rewrite Ht, Hf, Hi. split; [eexists; reflexivity | split; reflexivity].
Qed.

(** A fulfilled submission runs [onSuccess] on the response body, after the
    one PUT request went out with the bearer token. *)
Lemma mutate_fulfilled (data body R : value) (s : Z) (token : string) (st : state) :
  localStorage st !! "therapyToken" = Some token -> token <> "" ->
  nullish data = false ->
  200 <= s < 300 ->
  is_object R = true -> carries body R ->
  exists req,
    exec (mutate data (Responds (mkResponse s body))) st
    = after_success body R (push_request req st)
    /\ method req = "PUT"
    /\ authorization req = Some ("Bearer " +:+ token).
Proof.
  intros Htok Hne Hdata Hs HR Hc.
  eexists. unfold exec, mutate, try_catch, bind.
  unfold mutationFn, bind, localStorage_getItem, gets. rewrite Htok. simpl.
  destruct (String.eqb_spec token ""); [contradiction|]. simpl.
  unfold get. rewrite Hdata. simpl.
  unfold try_catch, bind, gets, axios_request, modify, ret. simpl.
  destruct (Z.leb_spec 200 s); [|lia]. destruct (Z.ltb_spec s 300); [|lia]. simpl.
  rewrite (onSuccess_carries body R _ HR Hc). simpl.
  split; [reflexivity|]. split; reflexivity.
Qed.


(** ** Frame reasoning for handlers *)

Section Frame.

Variable R : state -> state -> Prop.
Hypothesis R_refl : forall st, R st st.
Hypothesis R_trans : forall st1 st2 st3, R st1 st2 -> R st2 st3 -> R st1 st3.

Lemma preserves_ret {A} (a : A) : preserves R (ret a).
Proof using R_refl. intros st. apply R_refl. Qed.

Lemma preserves_throw {A} (e : exn) : preserves R (@throw A e).
Proof using R_refl. intros st. apply R_refl. Qed.

Lemma preserves_gets {A} (f : state -> A) : preserves R (gets f).
Proof using R_refl. intros st. apply R_refl. Qed.

Lemma preserves_modify (f : state -> state) :
  (forall st, R st (f st)) -> preserves R (modify f).
Proof. intros H st. apply H. Qed.

Lemma preserves_bind {A B} (m : M A) (k : A -> M B) :
  preserves R m -> (forall a, preserves R (k a)) -> preserves R (bind m k).
Proof using R_trans.
  intros Hm Hk st. unfold bind. specialize (Hm st).
  destruct (m st) as [[a|e] st1]; simpl in *; [|exact Hm].
  exact (R_trans _ _ _ Hm (Hk a st1)).
Qed.

Lemma preserves_try_catch {A} (m : M A) (handler : exn -> M A) :
  preserves R m -> (forall e, preserves R (handler e)) -> preserves R (try_catch m handler).
Proof using R_trans.
  intros Hm Hh st. unfold try_catch. specialize (Hm st).
  destruct (m st) as [[a|e] st1]; simpl in *; [exact Hm|].
  exact (R_trans _ _ _ Hm (Hh e st1)).
Qed.

End Frame.

(** One structural step of a frame proof. *)
Ltac frame_step :=
  lazymatch goal with
  | |- preserves _ (ret _) => apply preserves_ret; solve [auto]
  | |- preserves _ (throw _) => apply preserves_throw; solve [auto]
  | |- preserves _ (gets _) => apply preserves_gets; solve [auto]
  | |- preserves _ (bind _ _) =>
      apply preserves_bind; [solve [eauto] | | intros ?]
  | |- preserves _ (try_catch _ _) =>
      apply preserves_try_catch; [solve [eauto] | | intros ?]
  | |- preserves _ (modify _) => apply preserves_modify
  | |- preserves _ (if ?b then _ else _) => destruct b
  | |- preserves _ (match ?x with _ => _ end) => destruct x
  end.

Ltac frame_unfold :=
  unfold mutate, mutationFn, onSuccess, onError, queryFn, therapistData_of,
    resolveTherapistId, jwtDecode_call, populateForm, handleFieldChange,
    handleImageChange, field_onChange, text_onChange, createObjectURL,
    axios_request, localStorage_getItem, get, console_error, console_log,
    setTherapistId, setImagePreview, setInitialValues;
  cbv zeta.

Lemma kept_refl {A} (proj : state -> A) (st : state) : kept proj st st.
Proof. reflexivity. Qed.

Lemma kept_trans {A} (proj : state -> A) (st1 st2 st3 : state) :
  kept proj st1 st2 -> kept proj st2 st3 -> kept proj st1 st3.
Proof. unfold kept. congruence. Qed.

(** A frame proof for a component that the handler never writes. *)
Ltac frame_kept :=
  frame_unfold;
  repeat frame_step;
  intros ?st; unfold kept, setQueryData, invalidateQueries;
  try reflexivity;
  match goal with
  | |- context [match ?v with _ => _ end] => destruct v
  end; reflexivity.

Ltac frame_init proj :=
  pose proof (kept_refl proj); pose proof (kept_trans proj).

(** ** The component only reads the storage *)

Lemma queryFn_storage (net : outcome) : preserves (kept localStorage) (queryFn net).
Proof. frame_init localStorage. frame_kept. Qed.

Lemma mutate_storage (data : value) (net : outcome) :
  preserves (kept localStorage) (mutate data net).
Proof. frame_init localStorage. frame_kept. Qed.

Lemma resolveTherapistId_storage : preserves (kept localStorage) resolveTherapistId.
Proof. frame_init localStorage. frame_kept. Qed.

Lemma populateForm_storage : preserves (kept localStorage) populateForm.
Proof. frame_init localStorage. frame_kept. Qed.

Lemma handleImageChange_storage (file : option File) :
  preserves (kept localStorage) (handleImageChange file).
Proof. frame_init localStorage. frame_kept. Qed.

Lemma handleFieldChange_storage (name : string) (v : value) :
  preserves (kept localStorage) (handleFieldChange name v).
Proof. frame_init localStorage. frame_kept. Qed.

Lemma fetchTherapist_storage (first second : outcome) (st : state) :
  localStorage (fetchTherapist first second st) = localStorage st.
Proof.
  unfold fetchTherapist. destruct (enabled st); [|reflexivity].
  pose proof (queryFn_storage first st) as H1. unfold kept in H1.
  destruct (queryFn first st) as [[d|e] st1]; simpl in *; [exact H1|].
  pose proof (queryFn_storage second st1) as H2. unfold kept in H2.
  destruct (queryFn second st1) as [[d|e2] st2]; simpl in *; congruence.
Qed.

Lemma step_storage (ev : event) (st : state) : localStorage (step ev st) = localStorage st.
Proof.
  destruct ev; simpl.
  - apply resolveTherapistId_storage.
  - apply fetchTherapist_storage.
  - apply populateForm_storage.
  - apply mutate_storage.
  - reflexivity.
  - apply handleFieldChange_storage.
  - apply handleImageChange_storage.
Qed.

Lemma run_storage_untouched (evs : list event) (st : state) :
  localStorage (run evs st) = localStorage st.
Proof.
  revert st. induction evs as [|ev evs IH]; intros st; simpl; [reflexivity|].
  rewrite IH. apply step_storage.
Qed.

(** ** The loader, case by case *)

Lemma queryFn_network (net : outcome) (st : state) :
  network (snd (queryFn net st)) = network st ++ [read_request (therapistId st)].
Proof.
  unfold queryFn, try_catch, bind, gets, axios_request, modify, console_log,
    console_error, therapistData_of, throw, ret. simpl.
  destruct net as [|[s body]]; simpl; [reflexivity|].
  destruct (s <? 500); simpl; [|reflexivity].
  destruct (s =? 404); simpl; [reflexivity|].
  destruct (String.eqb (typeof body) "string" && includes (ToString body) "<!doctype html");
    simpl; [reflexivity|].
  destruct (negb (truthy (or_else (opt_member body "data") body))
            || negb (String.eqb (typeof (or_else (opt_member body "data") body)) "object"));
    reflexivity.
Qed.

Lemma queryFn_only_io (net : outcome) (st : state) : only_io st (snd (queryFn net st)).
Proof.
  unfold only_io.
  repeat split;
    [ frame_init imagePreview | frame_init therapistId | frame_init initialValues
    | frame_init formValues | frame_init queryCache | frame_init localStorage
    | frame_init toasts | frame_init objectURLs ];
    match goal with
    | |- ?proj (snd (queryFn net st)) = ?proj st =>
        change (kept proj st (snd (queryFn net st)));
        generalize st; change (preserves (kept proj) (queryFn net))
    end;
    frame_kept.
Qed.

(** X1. Whatever the network answers, queryFn sends exactly one request, the GET
    of http://localhost:5000/api/therapists/<id> with no Authorization
    header and no body, and apart from the console changes nothing else:
    preview, identifier, snapshot, form values, cache, storage,
    notifications and object URLs are as before. *)
Theorem queryFn_footprint (net : outcome) (st : state) :
  network (snd (queryFn net st)) = network st ++ [read_request (therapistId st)]
  /\ only_io st (snd (queryFn net st)).
Proof.
  split.
  - unfold queryFn, try_catch, bind, gets, axios_request, modify, console_log,
      console_error, therapistData_of, throw, ret. simpl.
    destruct net as [|[s body]]; simpl; [reflexivity|].
    destruct (s <? 500); simpl; [|reflexivity].
    destruct (s =? 404); simpl; [reflexivity|].
    destruct (String.eqb (typeof body) "string" && includes (ToString body) "<!doctype html");
      simpl; [reflexivity|].
    destruct (negb (truthy (or_else (opt_member body "data") body))
              || negb (String.eqb (typeof (or_else (opt_member body "data") body)) "object"));
      reflexivity.
  - unfold only_io.
    repeat split;
      [ frame_init imagePreview | frame_init therapistId | frame_init initialValues
      | frame_init formValues | frame_init queryCache | frame_init localStorage
      | frame_init toasts | frame_init objectURLs ];
      match goal with
      | |- ?proj (snd (queryFn net st)) = ?proj st =>
          change (kept proj st (snd (queryFn net st)));
          generalize st; change (preserves (kept proj) (queryFn net))
      end;
      frame_kept.
Qed.

(** The loader's verdict on an answer, apart from the state. *)
Lemma queryFn_result (net : outcome) (st : state) :
  fst (queryFn net st) =
  match net with
  | NetworkFailure => Throw (AxiosError "Network Error" None)
  | Responds r =>
      if 500 <=? status r
      then Throw (AxiosError ("Request failed with status code " +:+ pretty (status r)) (Some r))
      else if status r =? 404 then Throw (Error "Therapist profile not found")
      else if String.eqb (typeof (data r)) "string"
              && includes (ToString (data r)) "<!doctype html"
      then Throw (Error "Invalid response: Received HTML from server")
      else if is_object (unwrapped (data r)) then Ok (unwrapped (data r))
      else Throw (Error "Invalid response format from server")
  end.
Proof.
  unfold queryFn, try_catch, bind, gets, axios_request, modify, console_log,
    console_error, therapistData_of, throw, ret, unwrapped, is_object. simpl.
  destruct net as [|[s body]]; simpl; [reflexivity|].
  destruct (Z.ltb_spec s 500), (Z.leb_spec 500 s); try lia; simpl; [|reflexivity].
  destruct (s =? 404); simpl; [reflexivity|].
  destruct (String.eqb (typeof body) "string" && includes (ToString body) "<!doctype html");
    simpl; [reflexivity|].
  destruct (truthy (or_else (opt_member body "data") body)); simpl;
    [|reflexivity].
  destruct (String.eqb (typeof (or_else (opt_member body "data") body)) "object");
    reflexivity.
Qed.

Lemma string_not_object (body : value) :
  typeof body = "string" -> is_object (unwrapped body) = false.
Proof. destruct body; try discriminate. intros _. unfold unwrapped, or_else, is_object. simpl.
  apply andb_false_r. Qed.

Lemma queryFn_ok_inv (net : outcome) (st : state) (v : value) :
  fst (queryFn net st) = Ok v <->
  exists s body,
    net = Responds (mkResponse s body)
    /\ s < 500 /\ s <> 404
    /\ is_object (unwrapped body) = true
    /\ v = unwrapped body.
Proof.
  rewrite queryFn_result. split.
  - destruct net as [|[s body]]; [discriminate|]. simpl.
    destruct (Z.leb_spec 500 s); [discriminate|].
    destruct (Z.eqb_spec s 404); [discriminate|].
    destruct (String.eqb (typeof body) "string" && includes (ToString body) "<!doctype html");
      [discriminate|].
    destruct (is_object (unwrapped body)) eqn:Hobj; [|discriminate].
    intros [= <-]. exists s, body. auto.
  - intros (s & body & -> & Hs & H404 & Hobj & ->). simpl.
    destruct (Z.leb_spec 500 s); [lia|].
    destruct (Z.eqb_spec s 404); [lia|].
    destruct (String.eqb_spec (typeof body) "string") as [Hstr|_]; simpl.
    + rewrite (string_not_object body Hstr) in Hobj. discriminate.
    + rewrite Hobj. reflexivity.
Qed.

(** X2. queryFn returns a value v exactly when the server answered with a status
    below 500 other than 404 and the payload (body.data when that is truthy,
    the body otherwise) is a truthy value of type object; v is that payload.
    So it never returns null, a string or a number. *)
Theorem queryFn_succeeds_iff (net : outcome) (st : state) (v : value) :
  fst (queryFn net st) = Ok v <->
  exists s body,
    net = Responds (mkResponse s body)
    /\ s < 500 /\ s <> 404
    /\ is_object (unwrapped body) = true
    /\ v = unwrapped body.
Proof.
  rewrite queryFn_result. split.
  - destruct net as [|[s body]]; [discriminate|]. simpl.
    destruct (Z.leb_spec 500 s); [discriminate|].
    destruct (Z.eqb_spec s 404); [discriminate|].
    destruct (String.eqb (typeof body) "string" && includes (ToString body) "<!doctype html");
      [discriminate|].
    destruct (is_object (unwrapped body)) eqn:Hobj; [|discriminate].
    intros [= <-]. exists s, body. auto.
  - intros (s & body & -> & Hs & H404 & Hobj & ->). simpl.
    destruct (Z.leb_spec 500 s); [lia|].
    destruct (Z.eqb_spec s 404); [lia|].
    destruct (String.eqb_spec (typeof body) "string") as [Hstr|_]; simpl.
    + rewrite (string_not_object body Hstr) in Hobj. discriminate.
    + rewrite Hobj. reflexivity.
Qed.

(** X3. A 404 answer fails with 'Therapist profile not found' whatever its body;
    an answer with status 500 or above fails with the axios error that
    carries the response; a network failure fails with the axios network
    error. *)
Theorem queryFn_status_errors (s : Z) (body : value) (st : state) :
  (s = 404 -> fst (queryFn (Responds (mkResponse s body)) st)
              = Throw (Error "Therapist profile not found"))
  /\ (500 <= s -> exists m, fst (queryFn (Responds (mkResponse s body)) st)
                            = Throw (AxiosError m (Some (mkResponse s body))))
  /\ fst (queryFn NetworkFailure st) = Throw (AxiosError "Network Error" None).
Proof.
  rewrite !queryFn_result. simpl. split; [|split].
  - intros ->. reflexivity.
  - intros Hs. destruct (Z.leb_spec 500 s); [eauto | lia].
  - reflexivity.
Qed.

(** ** One fetch: at most one retry *)

Lemma queryFn_therapistId (net : outcome) (st : state) :
  therapistId (snd (queryFn net st)) = therapistId st.
Proof. apply queryFn_only_io. Qed.

Lemma queryFn_queryCache (net : outcome) (st : state) :
  queryCache (snd (queryFn net st)) = queryCache st.
Proof. apply queryFn_only_io. Qed.

Lemma queryFn_result_any_state (net : outcome) (st st' : state) :
  fst (queryFn net st) = fst (queryFn net st').
Proof. rewrite !queryFn_result. reflexivity. Qed.

Lemma fetchTherapist_network (first second : outcome) (st : state) :
  network (fetchTherapist first second st)
  = network st ++
    (if enabled st then
       match fst (queryFn first st) with
       | Ok _ => [read_request (therapistId st)]
       | Throw _ => [read_request (therapistId st); read_request (therapistId st)]
       end
     else []).
Proof.
  unfold fetchTherapist. destruct (enabled st); [|symmetry; apply app_nil_r].
  pose proof (queryFn_network first st) as Hn1.
  pose proof (queryFn_therapistId first st) as Hid1.
  destruct (queryFn first st) as [[d|e] st1]; simpl in *; [exact Hn1|].
  pose proof (queryFn_network second st1) as Hn2.
  rewrite Hn1, Hid1, <- app_assoc in Hn2. simpl in Hn2.
  destruct (queryFn second st1) as [[d|e2] st2]; simpl in *; exact Hn2.
Qed.

(** X4. One fetch by useQuery sends no request when the query is disabled, one
    read request when the first attempt succeeds, and two (the attempt and
    its single retry) when the first attempt fails; never more than two. *)
Theorem fetchTherapist_requests (first second : outcome) (st : state) :
  network (fetchTherapist first second st)
  = network st ++
    (if enabled st then
       match fst (queryFn first st) with
       | Ok _ => [read_request (therapistId st)]
       | Throw _ => [read_request (therapistId st); read_request (therapistId st)]
       end
     else [])
  /\ (length (network (fetchTherapist first second st)) <= length (network st) + 2)%nat.
Proof.
  pose proof (fetchTherapist_network first second st) as H. split; [exact H|].
  rewrite H, length_app.
  destruct (enabled st); [destruct (fst (queryFn first st))|]; simpl; lia.
Qed.

Lemma therapist_query_settled (v : value) (s : query_status) (st : state) :
  therapist (query_settled v s st) = v /\ query_status_of (query_settled v s st) = Some s.
Proof.
  unfold therapist, query_status_of, query_settled. simpl.
  rewrite lookup_insert_eq. auto.
Qed.

(** X5. When the query is enabled: if the first attempt, or else the retry,
    succeeds with d, the cache entry of the current identifier holds d, an
    object, with status success; if both fail, the entry keeps the data it
    had and records the retry's error. *)
Theorem fetchTherapist_outcome (first second : outcome) (st : state) :
  enabled st = true ->
  let st' := fetchTherapist first second st in
  match fst (queryFn first st), fst (queryFn second st) with
  | Ok d, _ | Throw _, Ok d =>
      therapist st' = d /\ is_object d = true /\ query_status_of st' = Some QSuccess
  | Throw _, Throw e =>
      therapist st' = therapist st /\ query_status_of st' = Some (QError e)
  end.
Proof.
  intros Hen. unfold fetchTherapist. rewrite Hen.
  rewrite (queryFn_result_any_state second st (snd (queryFn first st))).
  pose proof (queryFn_ok_inv first st) as Hok1.
  pose proof (queryFn_therapistId first st) as Hid1.
  pose proof (queryFn_queryCache first st) as Hc1.
  destruct (queryFn first st) as [[d|e] st1]; simpl in *.
  - destruct (proj1 (Hok1 d) eq_refl) as (s & body & _ & _ & _ & Hobj & ->).
    destruct (therapist_query_settled (unwrapped body) QSuccess st1). auto.
  - pose proof (queryFn_ok_inv second st1) as Hok2.
    pose proof (queryFn_therapistId second st1) as Hid2.
    pose proof (queryFn_queryCache second st1) as Hc2.
    destruct (queryFn second st1) as [[d|e2] st2]; simpl in *.
    + destruct (proj1 (Hok2 d) eq_refl) as (s & body & _ & _ & _ & Hobj & ->).
      destruct (therapist_query_settled (unwrapped body) QSuccess st2). auto.
    + destruct (therapist_query_settled (therapist st2) (QError e2) st2) as [Ht Hs].
      split; [|exact Hs]. rewrite Ht. unfold therapist.
      rewrite Hc2, Hc1, Hid2, Hid1. reflexivity.
Qed.

(** ** The update request *)

Lemma append_if_present_app (formData : list (string * value)) (name : string) (v : value) :
  append_if_present formData name v
  = formData ++ (if truthy v then [(name, formData_value v)] else []).
Proof.
  unfold append_if_present, formData_append, formData_value.
  destruct (truthy v); [reflexivity | symmetry; apply app_nil_r].
Qed.

Lemma payload_chain (data : value) :
  append_if_present
    (append_if_present
       (append_if_present
          (append_if_present
             (append_if_present
                (append_if_present
                   (append_if_present [] "full_name" (member data "full_name"))
                   "phone" (member data "phone"))
                "email" (member data "email"))
             "address" (member data "address"))
          "nic_number" (member data "nic_number"))
       "work_start_year" (member data "work_start_year"))
    "image" (member data "image")
  = payload_of data.
Proof.
  rewrite !append_if_present_app. unfold payload_of, form_fields. simpl.
  rewrite app_nil_r, <- !app_assoc. reflexivity.
Qed.

Lemma mutationFn_sends (data : value) (net : outcome) (token : string) (st : state) :
  localStorage st !! "therapyToken" = Some token -> token <> "" ->
  nullish data = false ->
  mutationFn data net st =
  match net with
  | NetworkFailure =>
      (Throw (AxiosError "Network Error" None),
       push_console "error" "Update error:"
         (push_request (update_request (therapistId st) token data) st))
  | Responds (mkResponse s body) =>
      if (200 <=? s) && (s <? 300)
      then (Ok body, push_request (update_request (therapistId st) token data) st)
      else (Throw (AxiosError ("Request failed with status code " +:+ pretty s)
                              (Some (mkResponse s body))),
            push_console "error" "Update error:"
              (push_request (update_request (therapistId st) token data) st))
  end.
Proof.
  intros Htok Hne Hdata.
  unfold mutationFn, bind, localStorage_getItem, gets. rewrite Htok. simpl.
  destruct (String.eqb_spec token ""); [contradiction|]. simpl.
  unfold get. rewrite Hdata. simpl. rewrite payload_chain.
  unfold try_catch, bind, gets, axios_request, modify, console_error, throw, ret,
    update_request. simpl.
  destruct net as [|[s body]]; simpl; [reflexivity|].
  destruct ((200 <=? s) && (s <? 300)); reflexivity.
Qed.

Lemma payload_of_elem (data : value) (name : string) (v : value) :
  (name, v) ∈ payload_of data <->
  name ∈ form_fields /\ truthy (member data name) = true
  /\ v = formData_value (member data name).
Proof.
  unfold payload_of. rewrite !list_elem_of_In, in_flat_map. split.
  - intros (k & Hk & Hin). destruct (truthy (member data k)) eqn:Ht; [|inversion Hin].
    destruct Hin as [[= <- <-]|[]]. auto.
  - intros (Hin & Ht & ->). exists name. split; [exact Hin|].
    rewrite Ht. left. reflexivity.
Qed.

(** X6. With a non-empty token stored and a non-null data, mutationFn sends
    exactly one request: a PUT to /api/therapists/<id> with Authorization
    'Bearer <token>', whose multipart entries are exactly the seven form
    fields of data that are truthy (a File as it is, any other value as a
    string). A field that is absent or empty is not sent. *)
Theorem mutationFn_request (data : value) (net : outcome) (token : string) (st : state) :
  localStorage st !! "therapyToken" = Some token -> token <> "" ->
  nullish data = false ->
  exists req,
    network (snd (mutationFn data net st)) = network st ++ [req]
    /\ method req = "PUT"
    /\ url req = "/api/therapists/" +:+ ToString (therapistId st)
    /\ authorization req = Some ("Bearer " +:+ token)
    /\ (forall name v,
          (name, v) ∈ body req <->
          name ∈ form_fields /\ truthy (member data name) = true
          /\ v = formData_value (member data name)).
Proof.
  intros Htok Hne Hdata. exists (update_request (therapistId st) token data).
  rewrite (mutationFn_sends data net token st Htok Hne Hdata).
  split.
  - destruct net as [|[s body]]; [reflexivity|].
    destruct ((200 <=? s) && (s <? 300)); reflexivity.
  - split; [reflexivity|]. split; [reflexivity|]. split; [reflexivity|].
    intros name v. apply payload_of_elem.
Qed.

(** X7. With a token stored and a non-null data, mutationFn returns the response
    body exactly for the statuses 200 to 299; every other status, including
    those the loader would inspect, is an axios error carrying the response. *)
Theorem mutationFn_strict_2xx (data body : value) (s : Z) (token : string) (st : state) :
  localStorage st !! "therapyToken" = Some token -> token <> "" ->
  nullish data = false ->
  (200 <= s < 300 -> fst (mutationFn data (Responds (mkResponse s body)) st) = Ok body)
  /\ (~ 200 <= s < 300 ->
      exists m, fst (mutationFn data (Responds (mkResponse s body)) st)
                = Throw (AxiosError m (Some (mkResponse s body)))).
Proof.
  intros Htok Hne Hdata.
  rewrite (mutationFn_sends data _ token st Htok Hne Hdata).
  destruct (Z.leb_spec 200 s), (Z.ltb_spec s 300); simpl; split; intros; try lia; eauto.
Qed.

(** ** How a submission ends *)

Lemma onError_exec (e : exn) (st : state) :
  onError e st
  = (Ok tt, push_toast (toast_error
                          (or_else (exn_response_data_error e)
                             (or_else (exn_message e) (Str "Failed to update profile")))) st).
Proof. reflexivity. Qed.

Lemma onError_axios (m : string) (s : Z) (body : value) (st : state) :
  onError (AxiosError m (Some (mkResponse s body))) st
  = (Ok tt, push_toast (toast_error
                          (if truthy (opt_member body "error")
                           then opt_member body "error"
                           else or_else (Str m) (Str "Failed to update profile"))) st).
Proof. reflexivity. Qed.

(** X8. When the server answers an update with a status outside 200..299, mutate
    emits exactly one error notification, whose message is the body's error
    field when that is truthy and the axios message 'Request failed with
    status code <s>' otherwise; the one PUT went out, and the cache and the
    preview are untouched. *)
Theorem mutate_rejected_status (data body : value) (s : Z) (token : string) (st : state) :
  localStorage st !! "therapyToken" = Some token -> token <> "" ->
  nullish data = false ->
  ~ 200 <= s < 300 ->
  let st' := exec (mutate data (Responds (mkResponse s body))) st in
  toasts st' = toasts st ++
    [toast_error (if truthy (opt_member body "error")
                  then opt_member body "error"
                  else Str ("Request failed with status code " +:+ pretty s))]
  /\ network st' = network st ++ [update_request (therapistId st) token data]
  /\ queryCache st' = queryCache st
  /\ imagePreview st' = imagePreview st.
Proof.
  intros Htok Hne Hdata Hs st'. subst st'.
  unfold exec, mutate, try_catch, bind.
  rewrite (mutationFn_sends data _ token st Htok Hne Hdata).
  assert (Hrange : (200 <=? s) && (s <? 300) = false).
  { destruct (Z.leb_spec 200 s), (Z.ltb_spec s 300); simpl; try reflexivity. lia. }
  rewrite Hrange, onError_axios.
  destruct (truthy (opt_member body "error")); [simpl; auto|].
  assert (Hmsg : or_else (Str ("Request failed with status code " +:+ pretty s))
                         (Str "Failed to update profile")
                 = Str ("Request failed with status code " +:+ pretty s))
    by reflexivity.
  rewrite Hmsg. simpl. auto.
Qed.

Lemma after_success_cache (body R : value) (st : state) (k : string) :
  R <> Undefined ->
  queryCache (after_success body R st) !! k
  = (fun q => if queryMatches (queryKey (therapistId st)) k
              then mkQuery (q_data q) (q_status q) true else q)
      <$> (<[hashKey (queryKey (therapistId st)) := mkQuery R QSuccess false]>
             (queryCache st) !! k).
Proof.
  intros HR. unfold after_success. rewrite invalidateQueries_lookup.
  assert (Hc : queryCache (setQueryData (queryKey (therapistId st)) R st)
               = <[hashKey (queryKey (therapistId st)) := mkQuery R QSuccess false]>
                   (queryCache st)).
  { unfold setQueryData. destruct R; try reflexivity. contradiction. }
  destruct (truthy (member R "image_path")); simpl; rewrite Hc; reflexivity.
Qed.

Lemma after_success_network (body R : value) (st : state) :
  network (after_success body R st)
  = network st
    ++ (if truthy (therapistId st)
           && queryMatches (queryKey (therapistId st)) (hashKey (queryKey (therapistId st)))
        then [read_request (therapistId st)] else []).
Proof.
  unfold after_success. rewrite invalidateQueries_network.
  destruct (setQueryData_same_cells (queryKey (therapistId st)) R st) as (Hid & _).
  assert (Hn : network (setQueryData (queryKey (therapistId st)) R st) = network st)
    by (destruct R; reflexivity).
  destruct (truthy (member R "image_path")); simpl; rewrite Hid, Hn; reflexivity.
Qed.

(** X9. When the response body carries the record R, onSuccess leaves the cache
    entry of the current identifier holding R with status success and marked
    invalidated (so that it is refetched). Every other cache entry keeps its
    data and status: one that the invalidation filter matches is marked
    invalidated too, one that it does not match is as it was. *)
Theorem onSuccess_cache_entry (body R : value) (st : state) (k : string) :
  is_object R = true -> carries body R ->
  let key := queryKey (therapistId st) in
  let st' := exec (onSuccess body) st in
  queryCache st' !! hashKey key = Some (mkQuery R QSuccess true)
  /\ (k <> hashKey key ->
      (queryMatches key k = true ->
       queryCache st' !! k
       = (fun q => mkQuery (q_data q) (q_status q) true) <$> (queryCache st !! k))
      /\ (queryMatches key k = false -> queryCache st' !! k = queryCache st !! k)).
Proof using queryMatches_exact.
  intros HR Hc key st'. subst key st'.
  destruct (is_object_facts R HR) as (_ & _ & _ & Hundef).
  unfold exec. rewrite (onSuccess_carries body R st HR Hc). simpl.
  rewrite !(after_success_cache body R st _ Hundef). split.
  - rewrite lookup_insert_eq, queryMatches_exact. reflexivity.
  - intros Hk. rewrite lookup_insert_ne by congruence.
    split; intros ->; destruct (queryCache st !! k); reflexivity.
Qed.

(** X10. When the response body carries the record R, onSuccess emits exactly one
    success notification, with the body's message when that is truthy and
    'Profile updated successfully' otherwise; when R has no image_path the
    preview is left as it is; the one request it sends is the refetch that
    the invalidation starts, a GET for the current identifier, and none
    when the query is disabled; no object URL is created. *)
Theorem onSuccess_notification (body R : value) (st : state) :
  is_object R = true -> carries body R ->
  let st' := exec (onSuccess body) st in
  toasts st' = toasts st ++
    [toast_success (if truthy (member body "message")
                    then member body "message"
                    else Str "Profile updated successfully")]
  /\ (truthy (member R "image_path") = false -> imagePreview st' = imagePreview st)
  /\ network st' = network st ++ (if enabled st then [read_request (therapistId st)] else [])
  /\ objectURLs st' = objectURLs st.
Proof using queryMatches_exact.
  intros HR Hc st'. subst st'. unfold exec.
  rewrite (onSuccess_carries body R st HR Hc). simpl.
  split; [|split; [|split]].
  - unfold after_success.
    match goal with
    | |- context [invalidateQueries ?key ?st4] =>
        destruct (invalidateQueries_cells key st4) as (_ & _ & _ & -> & _)
    end.
    destruct (setQueryData_same_cells (queryKey (therapistId st)) R st)
      as (_ & _ & _ & Ht & _).
    destruct (truthy (member R "image_path")); simpl; rewrite Ht; reflexivity.
  - intros Hfalsy. unfold after_success.
    match goal with
    | |- context [invalidateQueries ?key ?st4] =>
        destruct (invalidateQueries_cells key st4) as (_ & _ & _ & _ & -> & _)
    end.
    destruct (setQueryData_same_cells (queryKey (therapistId st)) R st)
      as (_ & _ & _ & _ & Hp).
    rewrite Hfalsy. simpl. exact Hp.
  - rewrite after_success_network, queryMatches_exact, andb_true_r. reflexivity.
  - unfold after_success.
    match goal with
    | |- context [invalidateQueries ?key ?st4] =>
        destruct (invalidateQueries_cells key st4) as (_ & _ & _ & _ & _ & ->)
    end.
    assert (Ho : objectURLs (setQueryData (queryKey (therapistId st)) R st) = objectURLs st)
      by (destruct R; reflexivity).
    destruct (truthy (member R "image_path")); simpl; rewrite Ho; reflexivity.
Qed.

(** X11. When the response body of a successful update is text (the empty string
    of a bodiless answer included), onSuccess completes, replaces the cached
    record of the current identifier by that text, keeps the preview, resets
    the snapshot to the form's values and reports success with the default
    message. *)
Theorem onSuccess_text_body (s : string) (st : state) :
  let st' := exec (onSuccess (Str s)) st in
  fst (onSuccess (Str s) st) = Ok tt
  /\ therapist st' = Str s
  /\ toasts st' = toasts st ++ [toast_success (Str "Profile updated successfully")]
  /\ imagePreview st' = imagePreview st
  /\ initialValues st' = formValues st.
Proof.
  unfold exec, onSuccess, bind, gets, modify, get, setImagePreview, setInitialValues, ret,
    or_else, opt_member.
  simpl.
  assert (Hdone : forall msg st0,
            therapist (invalidateQueries (queryKey (therapistId st))
                         (push_toast msg
                            (set_initialValues (formValues st0)
                               (setQueryData (queryKey (therapistId st)) (Str s) st))))
            = Str s).
  { intros msg st0. rewrite therapist_invalidateQueries.
    unfold therapist, setQueryData. simpl. rewrite lookup_insert_eq. reflexivity. }
  destruct (String.eqb s ""); simpl;
    match goal with
    | |- context [invalidateQueries ?key ?st4] =>
        destruct (invalidateQueries_cells key st4) as (_ & _ & -> & -> & -> & _)
    end;
    rewrite Hdone; simpl; auto.
Qed.

(** X12. When a 2xx answer to an update has the body null, onSuccess throws on
    reading image_path after it has written null to the cache; mutate then
    reports one error notification, the cached record of the current
    identifier is null, the snapshot is unchanged, and the PUT has gone out. *)
Theorem mutate_null_body (data : value) (s : Z) (token : string) (st : state) :
  localStorage st !! "therapyToken" = Some token -> token <> "" ->
  nullish data = false ->
  200 <= s < 300 ->
  let st' := exec (mutate data (Responds (mkResponse s Null))) st in
  (exists msg, toasts st' = toasts st ++ [toast_error (Str msg)])
  /\ therapist st' = Null
  /\ initialValues st' = initialValues st
  /\ network st' = network st ++ [update_request (therapistId st) token data].
Proof.
  intros Htok Hne Hdata Hs st'. subst st'.
  unfold exec, mutate, try_catch, bind.
  rewrite (mutationFn_sends data _ token st Htok Hne Hdata).
  destruct (Z.leb_spec 200 s), (Z.ltb_spec s 300); try lia. simpl.
  unfold therapist. simpl. rewrite lookup_insert_eq. simpl.
  split; [eexists; reflexivity | auto].
Qed.

(** ** Clearing the image, and releasing previews *)

Lemma handleImageChange_cleared (st : state) :
  exec (handleImageChange None) st
  = set_imagePreview (image_url (opt_member (therapist st) "image_path"))
      (set_formValues (set_prop (formValues st) "image" Null) st).
Proof. reflexivity. Qed.

Lemma handleImageChange_therapist (file : option File) (st : state) :
  therapist (exec (handleImageChange file) st) = therapist st.
Proof.
  assert (Hc : queryCache (exec (handleImageChange file) st) = queryCache st).
  { frame_init queryCache.
    change (kept queryCache st (snd (handleImageChange file st))).
    generalize st. change (preserves (kept queryCache) (handleImageChange file)).
    frame_kept. }
  assert (Hid : therapistId (exec (handleImageChange file) st) = therapistId st).
  { frame_init therapistId.
    change (kept therapistId st (snd (handleImageChange file st))).
    generalize st. change (preserves (kept therapistId) (handleImageChange file)).
    frame_kept. }
  unfold therapist. rewrite Hc, Hid. reflexivity.
Qed.

(** X13. Clearing the image selection, after any earlier pick (accepted, rejected
    or none), sets the pending image value to null and the preview to the
    server image of the cached record (the prefixed image_path, or null when
    there is none): the same preview as clearing without the earlier pick. *)
Theorem deselect_reverts (file : option File) (st : state) :
  let st' := exec (handleImageChange None) (exec (handleImageChange file) st) in
  lookup_prop (formValues st') "image" = Null
  /\ imagePreview st' = image_url (opt_member (therapist st) "image_path")
  /\ imagePreview st' = imagePreview (exec (handleImageChange None) st).
Proof.
  intros st'. subst st'. rewrite !handleImageChange_cleared. simpl.
  rewrite handleImageChange_therapist. split; [apply lookup_set_prop | auto].
Qed.

Lemma populateForm_exec (st : state) :
  truthy (therapist st) = true ->
  exists defaults,
    exec populateForm st
    = set_imagePreview (image_url (member (therapist st) "image_path"))
        (set_initialValues defaults
           (set_formValues defaults
              (push_console "log" "Setting form values with therapist data:" st)))
    /\ defaults =
       [("full_name", or_else (member (therapist st) "full_name") (Str ""));
        ("phone", or_else (member (therapist st) "phone") (Str ""));
        ("email", or_else (member (therapist st) "email") (Str ""));
        ("address", or_else (member (therapist st) "address") (Str ""));
        ("nic_number", or_else (member (therapist st) "nic_number") (Str ""));
        ("work_start_year",
          if truthy (member (therapist st) "work_start_year")
          then Str (ToString (member (therapist st) "work_start_year"))
          else Str "");
        ("image", Null)].
Proof.
  intros Ht. eexists. split; [|reflexivity].
  unfold exec, populateForm, bind, gets. rewrite Ht. reflexivity.
Qed.

Lemma populateForm_therapist (st : state) : therapist (exec populateForm st) = therapist st.
Proof.
  unfold exec, populateForm, bind, gets.
  destruct (truthy (therapist st)); reflexivity.
Qed.

(** X14. Right after the form was populated from a loaded record, clearing the
    image selection leaves the preview exactly as population set it: the two
    places that build the server image URL agree. *)
Theorem deselect_after_populate (st : state) :
  truthy (therapist st) = true ->
  imagePreview (exec (handleImageChange None) (exec populateForm st))
  = imagePreview (exec populateForm st).
Proof.
  intros Ht. rewrite handleImageChange_cleared. simpl.
  rewrite populateForm_therapist, (populateForm_preview st Ht).
  unfold opt_member. destruct (therapist st); try discriminate Ht; reflexivity.
Qed.

Lemma image_url_not_blob (v : value) (s : string) :
  image_url v = Str s -> startsWith s "blob:" = false.
Proof.
  unfold image_url. destruct (truthy v); [|discriminate]. intros [= <-]. reflexivity.
Qed.

Lemma startsWith_blob (s : string) : startsWith ("blob:" +:+ s) "blob:" = true.
Proof. destruct s; reflexivity. Qed.

Lemma cleanup_blob (st : state) (u : string) :
  imagePreview st = Str ("blob:" +:+ u) ->
  imagePreview_cleanup st = Ok (Some ("blob:" +:+ u)).
Proof.
  intros H. unfold imagePreview_cleanup. rewrite H. cbv beta iota.
  rewrite startsWith_blob. reflexivity.
Qed.

(** X15. The cleanup of the preview effect releases the preview set by an
    accepted image pick (the blob: reference just created), and releases
    nothing for the preview set by clearing the selection or by form
    population (a server URL or null). *)
Theorem cleanup_releases_local_previews (st : state) :
  (forall f, (file_size f <= 5 * 1024 * 1024)%N -> file_type f ∈ accepted_types ->
     imagePreview (exec (handleImageChange (Some f)) st)
     = Str ("blob:" +:+ pretty (objectURLs st))
     /\ imagePreview_cleanup (exec (handleImageChange (Some f)) st)
        = Ok (Some ("blob:" +:+ pretty (objectURLs st))))
  /\ imagePreview_cleanup (exec (handleImageChange None) st) = Ok None
  /\ (truthy (therapist st) = true ->
      imagePreview_cleanup (exec populateForm st) = Ok None).
Proof.
  assert (Hurl : forall v st0,
            imagePreview st0 = image_url v -> imagePreview_cleanup st0 = Ok None).
  { intros v st0 H. unfold imagePreview_cleanup. rewrite H.
    destruct (image_url v) eqn:Hv; try reflexivity;
      try (unfold image_url in Hv; destruct (truthy v); discriminate).
    rewrite (image_url_not_blob v s Hv). destruct (truthy (Str s)); reflexivity. }
  split; [|split].
  - intros f Hsize Hty. rewrite (handleImageChange_accepted f st Hsize Hty).
    split; [reflexivity|].
    apply cleanup_blob. reflexivity.
  - apply (Hurl (opt_member (therapist st) "image_path")).
    rewrite handleImageChange_cleared. reflexivity.
  - intros Ht. apply (Hurl (member (therapist st) "image_path")).
    apply populateForm_preview, Ht.
Qed.

(** ** What every run of the panel keeps *)

Lemma set_prop_keys (ps : props) (k : string) (v : value) :
  k ∈ ps.*1 -> (set_prop ps k v).*1 = ps.*1.
Proof.
  induction ps as [|[k' v'] ps IH]; intros Hin; [inversion Hin|].
  cbn [set_prop]. destruct (String.eqb_spec k' k) as [->|Hne]; [reflexivity|].
  rewrite !fmap_cons in *. cbn [fst] in *.
  apply elem_of_cons in Hin as [->|Hin]; [contradiction|].
  rewrite (IH Hin). reflexivity.
Qed.

Ltac frame_goal proj m :=
  match goal with
  | |- proj (exec m ?st) = proj ?st =>
      frame_init proj;
      change (kept proj st (snd (m st)));
      generalize st; change (preserves (kept proj) m);
      frame_kept
  end.

Lemma fetchTherapist_kept {A} (proj : state -> A) (first second : outcome) (st : state) :
  (forall c st0, proj (set_queryCache c st0) = proj st0) ->
  (forall net st0, proj (snd (queryFn net st0)) = proj st0) ->
  proj (fetchTherapist first second st) = proj st.
Proof.
  intros Hc Hq. unfold fetchTherapist, query_settled. destruct (enabled st); [|reflexivity].
  pose proof (Hq first st) as H1.
  destruct (queryFn first st) as [[d|e] st1]; simpl in *; [rewrite Hc; exact H1|].
  pose proof (Hq second st1) as H2.
  destruct (queryFn second st1) as [[d|e2] st2]; simpl in *; rewrite Hc; congruence.
Qed.

Lemma step_formValues_shape (ev : event) (st : state) :
  form_shaped st -> form_shaped (step ev st).
Proof.
  unfold form_shaped. intros Hshape.
  destruct ev as [|first second| |d net|f text|f|file]; simpl.
  - rewrite <- Hshape. f_equal. frame_goal formValues resolveTherapistId.
  - rewrite <- Hshape. f_equal.
    apply fetchTherapist_kept; [reflexivity | intros; apply queryFn_only_io].
  - unfold exec, populateForm, bind, gets.
    destruct (truthy (therapist st)); [reflexivity | exact Hshape].
  - rewrite <- Hshape. f_equal. frame_goal formValues (mutate d net).
  - unfold exec, text_onChange, bind, gets, modify. simpl.
    rewrite set_prop_keys; [exact Hshape|].
    rewrite Hshape. destruct f; apply list_elem_of_In; simpl; tauto.
  - rewrite <- Hshape. f_equal.
    generalize (lookup_prop (formValues st) (field_key f)) at 1. intros v.
    frame_goal formValues (handleFieldChange (field_key f) v).
  - destruct file as [file|].
    + destruct (N.ltb_spec (5 * 1024 * 1024) (file_size file)) as [Hbig|Hsmall].
      { rewrite (handleImageChange_too_big file st Hbig). exact Hshape. }
      destruct (Array_includes accepted_types (file_type file)) eqn:Hty.
      * apply Array_includes_elem_of in Hty.
        rewrite (handleImageChange_accepted file st Hsmall Hty). simpl.
        rewrite set_prop_keys; [exact Hshape|].
        rewrite Hshape. apply list_elem_of_In; simpl; tauto.
      * rewrite (handleImageChange_wrong_type file st Hsmall); [exact Hshape|].
        intros Hin. apply Array_includes_elem_of in Hin. congruence.
    + rewrite handleImageChange_cleared. simpl.
      rewrite set_prop_keys; [exact Hshape|].
      rewrite Hshape. apply list_elem_of_In; simpl; tauto.
Qed.

(** X16. Through every sequence of events (identity resolution, fetches, form
    population, submissions, typing, blurs, image picks and clears) the form
    keeps exactly its seven fields full_name, phone, email, address,
    nic_number, work_start_year, image, in that order. *)
Theorem run_form_shaped (evs : list event) (st : state) :
  form_shaped st -> form_shaped (run evs st).
Proof.
  revert st. induction evs as [|ev evs IH]; intros st H; simpl; [exact H|].
  apply IH, step_formValues_shape, H.
Qed.

Lemma keeps_refl (I : state -> Prop) (st : state) : keeps I st st.
Proof. intros H. exact H. Qed.

Lemma keeps_trans (I : state -> Prop) (st1 st2 st3 : state) :
  keeps I st1 st2 -> keeps I st2 st3 -> keeps I st1 st3.
Proof. unfold keeps. auto. Qed.

Lemma image_url_typed (v : value) : image_url v = Null \/ exists s, image_url v = Str s.
Proof. unfold image_url. destruct (truthy v); eauto. Qed.

(** A frame proof for the invariant [preview_typed]. *)
Ltac frame_typed :=
  pose proof (keeps_refl preview_typed); pose proof (keeps_trans preview_typed);
  frame_unfold;
  repeat frame_step;
  intros ?st; unfold keeps, preview_typed, setQueryData, invalidateQueries; simpl;
  try (intros _; solve [eauto using image_url_typed]);
  try solve [auto];
  match goal with
  | |- context [match ?v with _ => _ end] => destruct v
  end; solve [auto].

Lemma step_preview_typed (ev : event) (st : state) :
  preview_typed st -> preview_typed (step ev st).
Proof.
  destruct ev as [|first second| |d net|f text|f|file]; simpl.
  - change (keeps preview_typed st (snd (resolveTherapistId st))).
    generalize st. change (preserves (keeps preview_typed) resolveTherapistId).
    frame_typed.
  - unfold preview_typed.
    rewrite (fetchTherapist_kept imagePreview);
      [auto | reflexivity | intros; apply queryFn_only_io].
  - change (keeps preview_typed st (snd (populateForm st))).
    generalize st. change (preserves (keeps preview_typed) populateForm).
    frame_typed.
  - change (keeps preview_typed st (snd (mutate d net st))).
    generalize st. change (preserves (keeps preview_typed) (mutate d net)).
    frame_typed.
  - auto.
  - generalize (lookup_prop (formValues st) (field_key f)) at 1. intros v.
    change (keeps preview_typed st (snd (handleFieldChange (field_key f) v st))).
    generalize st. change (preserves (keeps preview_typed) (handleFieldChange (field_key f) v)).
    frame_typed.
  - change (keeps preview_typed st (snd (handleImageChange file st))).
    generalize st. change (preserves (keeps preview_typed) (handleImageChange file)).
    frame_typed.
Qed.

Lemma run_preview_typed (evs : list event) (st : state) :
  preview_typed st -> preview_typed (run evs st).
Proof.
  revert st. induction evs as [|ev evs IH]; intros st H; simpl; [exact H|].
  apply IH, step_preview_typed, H.
Qed.

(** X17. In every state the panel can reach from its mount, the preview is null
    or a string, so the cleanup's imagePreview.startsWith never fails: it
    always ends, releasing one reference or none. *)
Theorem cleanup_never_throws (evs : list event) (storage : gmap string string) :
  preview_typed (run evs (mount storage))
  /\ exists released, imagePreview_cleanup (run evs (mount storage)) = Ok released.
Proof.
  assert (H : preview_typed (run evs (mount storage))).
  { apply run_preview_typed. left. reflexivity. }
  split; [exact H|]. unfold imagePreview_cleanup.
  destruct H as [-> | [s ->]]; simpl; [eauto|].
  destruct (negb (String.eqb s "")); [|eauto].
  destruct (startsWith s "blob:"); eauto.
Qed.

(** ** Every request the panel sends *)







Lemma onError_network (e : exn) : preserves (kept network) (onError e).
Proof. frame_init network. frame_kept. Qed.





(** ** Change detection *)

Lemma hasChanges_true_iff (current initial : props) :
  hasChanges current initial = true <->
  exists key, key ∈ current.*1
              /\ strict_eq (lookup_prop current key) (lookup_prop initial key) = false.
Proof.
  unfold hasChanges, Object_keys. rewrite hasChanges_loop_true.
  split; intros (key & Hin & Hne); exists key; split; try exact Hne.
  - rewrite elem_of_remove_dups in Hin. exact Hin.
  - rewrite elem_of_remove_dups. exact Hin.
Qed.

(** X19. hasChanges(current, initial) is true exactly when some key of current
    holds a value not strictly equal to initial's value under that key, and
    false exactly when every key of current is strictly equal; keys that
    only initial has are never looked at. *)
Theorem hasChanges_detects (current initial : props) :
  (hasChanges current initial = true <->
   exists key, key ∈ current.*1
               /\ strict_eq (lookup_prop current key) (lookup_prop initial key) = false)
  /\ (hasChanges current initial = false <->
      forall key, key ∈ current.*1 ->
        strict_eq (lookup_prop current key) (lookup_prop initial key) = true).
Proof.
  split; [apply hasChanges_true_iff|].
  split.
  - intros Hno key Hin.
    destruct (strict_eq (lookup_prop current key) (lookup_prop initial key)) eqn:Hk;
      [reflexivity|].
    assert (Hyes : hasChanges current initial = true)
      by (apply hasChanges_true_iff; eauto).
    congruence.
  - intros Hall. destruct (hasChanges current initial) eqn:Hch; [|reflexivity].
    apply hasChanges_true_iff in Hch as (key & Hin & Hne).
    rewrite (Hall key Hin) in Hne. discriminate.
Qed.

Lemma strict_eq_self (v : value) : strict_eq v v = false <-> v = NaN.
Proof.
  destruct v; simpl; split; intros H; try discriminate H; try reflexivity.
  - destruct b; discriminate.
  - rewrite Z.eqb_refl in H. discriminate.
  - rewrite String.eqb_refl in H. discriminate.
  - rewrite Pos.eqb_refl in H. discriminate.
  - rewrite Pos.eqb_refl in H. discriminate.
  - rewrite Pos.eqb_refl in H. discriminate.
Qed.

(** X20. Compared with itself, a field map counts as changed exactly when one of
    its fields holds NaN (the only value not strictly equal to itself). *)
Theorem hasChanges_self (fields : props) :
  hasChanges fields fields = true <->
  exists key, key ∈ fields.*1 /\ lookup_prop fields key = NaN.
Proof.
  rewrite hasChanges_true_iff.
  split; intros (key & Hin & H); exists key; split; try exact Hin;
    apply strict_eq_self; exact H.
Qed.

Lemma hasChanges_single (name : string) (v w : value) :
  hasChanges [(name, v)] [(name, w)] = negb (strict_eq v w).
Proof.
  unfold hasChanges, Object_keys. simpl. rewrite String.eqb_refl.
  destruct (String.eqb name "image"), (strict_eq v w); reflexivity.
Qed.

Lemma handleFieldChange_exec (name : string) (v : value) (st : state) :
  handleFieldChange name v st
  = (Ok tt, if strict_eq v (lookup_prop (initialValues st) name)
            then st
            else push_console "log" "Field changed:" st).
Proof.
  unfold handleFieldChange, bind, gets. rewrite hasChanges_single.
  destruct (strict_eq v (lookup_prop (initialValues st) name)); reflexivity.
Qed.

(** X21. handleFieldChange never fails and never saves: it logs 'Field changed:'
    to the console exactly when the value is not strictly equal to the
    snapshot's value for that field, and otherwise leaves the state as it
    is; no request, no notification, no change to the form values or the
    snapshot. *)
Theorem handleFieldChange_only_logs (name : string) (v : value) (st : state) :
  handleFieldChange name v st
  = (Ok tt, if strict_eq v (lookup_prop (initialValues st) name)
            then st
            else push_console "log" "Field changed:" st)
  /\ network (exec (handleFieldChange name v) st) = network st
  /\ formValues (exec (handleFieldChange name v) st) = formValues st
  /\ initialValues (exec (handleFieldChange name v) st) = initialValues st
  /\ toasts (exec (handleFieldChange name v) st) = toasts st.
Proof.
  unfold exec. rewrite handleFieldChange_exec.
  destruct (strict_eq v (lookup_prop (initialValues st) name)); simpl; auto.
Qed.

(** X22. Typing a text into a field and then leaving it stores the text as the
    field's value and logs one change exactly when the text is not strictly
    equal to the snapshot's value of that field; nothing is sent and the
    snapshot stays. *)
Theorem input_then_blur (f : text_field) (text : string) (st : state) :
  let st' := run [EvInput f text; EvBlur f] st in
  lookup_prop (formValues st') (field_key f) = Str text
  /\ console st' = console st ++
       (if strict_eq (Str text) (lookup_prop (initialValues st) (field_key f))
        then []
        else [("log", "Field changed:")])
  /\ network st' = network st
  /\ initialValues st' = initialValues st.
Proof.
  intros st'. subst st'. cbn [run step].
  assert (Hst1 : exec (text_onChange f text) st
                 = set_formValues (set_prop (formValues st) (field_key f) (Str text)) st)
    by reflexivity.
  rewrite Hst1.
  change (formValues (set_formValues ?p st)) with p.
  rewrite lookup_set_prop.
  unfold exec. rewrite handleFieldChange_exec.
  change (initialValues (set_formValues _ st)) with (initialValues st).
  destruct (strict_eq (Str text) (lookup_prop (initialValues st) (field_key f))); simpl;
    rewrite ?lookup_set_prop, ?app_nil_r; repeat split; reflexivity.
Qed.




(** ** Numbers as text, and back *)

Lemma pretty_N_char_digit (k : N) :
  (k < 10)%N ->
  is_digit (pretty_N_char k) = true /\ char_code (pretty_N_char k) - 48 = Z.of_N k.
Proof.
  intros Hk.
  assert (Hcases : (k = 0 \/ k = 1 \/ k = 2 \/ k = 3 \/ k = 4 \/ k = 5 \/ k = 6 \/ k = 7
                    \/ k = 8 \/ k = 9)%N) by lia.
  repeat (destruct Hcases as [->|Hcases]; [split; reflexivity|]).
  subst k. split; reflexivity.
Qed.

Lemma pretty_N_go_value (x : N) (s : string) :
  decimal_value_from 0 (pretty_N_go x s) = decimal_value_from (Z.of_N x) s.
Proof.
  revert s. induction (N.lt_wf_0 x) as [x _ IH]. intros s.
  destruct (N.eq_dec x 0%N) as [->|Hx]; [rewrite pretty_N_go_0; reflexivity|].
  rewrite pretty_N_go_step by lia.
  rewrite IH by (apply N.div_lt; lia).
  cbn [decimal_value_from].
  destruct (pretty_N_char_digit (x `mod` 10)%N) as [_ ->]; [apply N.mod_lt; lia|].
  f_equal. rewrite (N.div_mod x 10) at 3 by lia. lia.
Qed.

Lemma pretty_N_go_digits (x : N) (s : string) :
  all_digits s = true -> all_digits (pretty_N_go x s) = true.
Proof.
  revert s. induction (N.lt_wf_0 x) as [x _ IH]. intros s Hs.
  destruct (N.eq_dec x 0%N) as [->|Hx]; [rewrite pretty_N_go_0; exact Hs|].
  rewrite pretty_N_go_step by lia.
  apply IH; [apply N.div_lt; lia|].
  unfold all_digits in *. simpl. rewrite Hs.
  destruct (pretty_N_char_digit (x `mod` 10)%N) as [-> _]; [apply N.mod_lt; lia|].
  reflexivity.
Qed.

Lemma parseInt_digits (s : string) :
  s <> "" -> all_digits s = true -> parseInt s = Some (decimal_value s).
Proof.
  destruct s as [|a rest]; [congruence|]. intros _ Hall.
  pose proof (all_digits_parse_first a rest Hall) as Hparse.
  unfold all_digits in Hall. simpl in Hall. apply andb_prop in Hall as [Ha Hrest].
  unfold parseInt. rewrite (skip_whitespace_digit a _ Ha).
  destruct rest as [|b rest'].
  - apply is_digit_cases in Ha.
    repeat (apply elem_of_cons in Ha as [->|Ha]);
      try (inversion Ha; fail);
      cbv beta iota zeta; rewrite Hparse; f_equal; lia.
  - simpl in Hrest. apply andb_prop in Hrest as [Hb _].
    apply is_digit_cases in Ha, Hb.
    repeat (apply elem_of_cons in Ha as [->|Ha]);
      try (inversion Ha; fail);
      repeat (apply elem_of_cons in Hb as [->|Hb]);
      try (inversion Hb; fail);
      cbv beta iota zeta; rewrite Hparse; f_equal; lia.
Qed.

Lemma pretty_pos_facts (p : positive) :
  pretty (Npos p) <> "" /\ all_digits (pretty (Npos p)) = true
  /\ decimal_value (pretty (Npos p)) = Zpos p.
Proof.
  assert (Hp : pretty (Npos p) = pretty_N_go (Npos p) "") by reflexivity.
  assert (Hv : decimal_value (pretty (Npos p)) = Zpos p).
  { rewrite Hp. unfold decimal_value. rewrite pretty_N_go_value. reflexivity. }
  split; [|split; [|exact Hv]].
  - intros Hempty. rewrite Hempty in Hv. discriminate Hv.
  - rewrite Hp. apply pretty_N_go_digits. reflexivity.
Qed.

Lemma parseInt_minus_digits (s : string) :
  s <> "" -> all_digits s = true -> parseInt (String "-" s) = Some (- decimal_value s).
Proof.
  destruct s as [|a rest]; [congruence|]. intros _ Hall.
  pose proof (all_digits_parse_first a rest Hall) as Hparse.
  unfold all_digits in Hall. simpl in Hall. apply andb_prop in Hall as [Ha Hrest].
  unfold parseInt.
  change (skip_whitespace (String "-" (String a rest))) with (String "-" (String a rest)).
  destruct rest as [|b rest'].
  - apply is_digit_cases in Ha.
    repeat (apply elem_of_cons in Ha as [->|Ha]);
      try (inversion Ha; fail);
      cbv beta iota zeta; rewrite Hparse; f_equal; lia.
  - simpl in Hrest. apply andb_prop in Hrest as [Hb _].
    apply is_digit_cases in Ha, Hb.
    repeat (apply elem_of_cons in Ha as [->|Ha]);
      try (inversion Ha; fail);
      repeat (apply elem_of_cons in Hb as [->|Hb]);
      try (inversion Hb; fail);
      cbv beta iota zeta; rewrite Hparse; f_equal; lia.
Qed.

(** X24. For every safe integer n, parseInt of the string that toString gives for
    n is n again: the year the form stores as text is read back by the
    validation as the same number. *)
Theorem parseInt_ToString (n : Z) :
  - 2 ^ 53 < n < 2 ^ 53 ->
  parseInt (ToString (Num n)) = Some n.
Proof.
  intros _. destruct n as [|p|p]; simpl.
  - reflexivity.
  - destruct (pretty_pos_facts p) as (Hne & Hd & Hv).
    change (pretty (Zpos p)) with (pretty (Npos p)).
    rewrite (parseInt_digits _ Hne Hd), Hv. reflexivity.
  - destruct (pretty_pos_facts p) as (Hne & Hd & Hv).
    change (pretty (Zneg p)) with (String "-" (pretty (Npos p))).
    rewrite (parseInt_minus_digits _ Hne Hd), Hv. reflexivity.
Qed.

Lemma pretty_N_go_length (x : N) (s : string) :
  (String.length s <= String.length (pretty_N_go x s))%nat.
Proof.
  revert s. induction (N.lt_wf_0 x) as [x _ IH]. intros s.
  destruct (N.eq_dec x 0%N) as [->|Hx]; [rewrite pretty_N_go_0; lia|].
  rewrite pretty_N_go_step by lia.
  etransitivity; [|apply IH; apply N.div_lt; lia]. simpl. lia.
Qed.

Lemma four_digit_pattern_length (s : string) :
  four_digit_pattern s = true -> String.length s = 4%nat.
Proof.
  destruct s as [|a [|b [|c [|d [|e s]]]]]; simpl; try discriminate. reflexivity.
Qed.

Lemma four_digit_pattern_digits (s : string) :
  String.length s = 4%nat -> all_digits s = true -> four_digit_pattern s = true.
Proof.
  destruct s as [|a [|b [|c [|d [|e s]]]]]; simpl; try discriminate.
  intros _. unfold all_digits. simpl. rewrite andb_true_r, !andb_assoc. auto.
Qed.

Lemma pretty_pos_length (p : positive) :
  String.length (pretty (Npos p)) = 4%nat <-> 1000 <= Zpos p <= 9999.
Proof.
  assert (Hp : pretty (Npos p) = pretty_N_go (Npos p) "") by reflexivity.
  rewrite Hp. set (x := Npos p).
  assert (Hx : Zpos p = Z.of_N x) by reflexivity. rewrite Hx.
  assert (Hpos : (0 < x)%N) by (subst x; lia).
  clearbody x. clear Hp Hx.
  remember (x `div` 10)%N as q1 eqn:Hq1.
  remember (q1 `div` 10)%N as q2 eqn:Hq2.
  remember (q2 `div` 10)%N as q3 eqn:Hq3.
  remember (q3 `div` 10)%N as q4 eqn:Hq4.
  assert (Hten : 10%N <> 0%N) by discriminate.
  pose proof (N.div_mod x 10 Hten) as E0. pose proof (N.mod_lt x 10 Hten) as M0.
  pose proof (N.div_mod q1 10 Hten) as E1. pose proof (N.mod_lt q1 10 Hten) as M1.
  pose proof (N.div_mod q2 10 Hten) as E2. pose proof (N.mod_lt q2 10 Hten) as M2.
  pose proof (N.div_mod q3 10 Hten) as E3. pose proof (N.mod_lt q3 10 Hten) as M3.
  rewrite <- Hq1 in E0. rewrite <- Hq2 in E1. rewrite <- Hq3 in E2. rewrite <- Hq4 in E3.
  remember (x `mod` 10)%N as r0 eqn:Hr0. remember (q1 `mod` 10)%N as r1 eqn:Hr1.
  remember (q2 `mod` 10)%N as r2 eqn:Hr2. remember (q3 `mod` 10)%N as r3 eqn:Hr3.
  clear Hr0 Hr1 Hr2 Hr3.
  rewrite pretty_N_go_step by exact Hpos. rewrite <- Hq1.
  destruct (N.eq_dec q1 0%N) as [H1|H1].
  { rewrite H1, pretty_N_go_0. simpl. split; [discriminate | clear Hq1 Hq2 Hq3 Hq4; lia]. }
  rewrite pretty_N_go_step by lia. rewrite <- Hq2.
  destruct (N.eq_dec q2 0%N) as [H2|H2].
  { rewrite H2, pretty_N_go_0. simpl. split; [discriminate | clear Hq1 Hq2 Hq3 Hq4; lia]. }
  rewrite pretty_N_go_step by lia. rewrite <- Hq3.
  destruct (N.eq_dec q3 0%N) as [H3|H3].
  { rewrite H3, pretty_N_go_0. simpl. split; [discriminate | clear Hq1 Hq2 Hq3 Hq4; lia]. }
  rewrite pretty_N_go_step by lia. rewrite <- Hq4.
  destruct (N.eq_dec q4 0%N) as [H4|H4].
  { rewrite H4, pretty_N_go_0. simpl. split; [clear Hq1 Hq2 Hq3 Hq4; lia | reflexivity]. }
  rewrite pretty_N_go_step by lia.
  match goal with
  | |- String.length (pretty_N_go ?y ?s) = _ <-> _ =>
      pose proof (pretty_N_go_length y s) as Hlen
  end.
  simpl in Hlen.
  split; [intros Hfour; rewrite Hfour in Hlen; lia | clear Hq1 Hq2 Hq3 Hq4; lia].
Qed.

Lemma year_rules_pass (currentYear : Z) (v : string) :
  validateField (work_start_year_rules currentYear) v = None <->
  v <> "" /\ four_digit_pattern v = true /\ decimal_value v <= currentYear.
Proof.
  unfold validateField, work_start_year_rules.
  cbn [required minLength pattern validate first_error].
  destruct (String.eqb_spec v "") as [->|Hne]; simpl.
  { split; [discriminate | intros [H _]; congruence]. }
  destruct (four_digit_pattern v) eqn:Hpat; simpl.
  - rewrite (not_after_four_digits currentYear v Hpat).
    destruct (Z.leb_spec (decimal_value v) currentYear) as [Hle|Hgt]; simpl.
    + split; auto.
    + split; [discriminate | intros (_ & _ & H); lia].
  - split; [discriminate | intros (_ & H & _); discriminate].
Qed.

Lemma pretty_four_digit (n : Z) :
  four_digit_pattern (pretty n) = true <-> 1000 <= n <= 9999.
Proof.
  destruct n as [|p|p].
  - split; [discriminate | lia].
  - change (pretty (Zpos p)) with (pretty (Npos p)).
    rewrite <- pretty_pos_length. destruct (pretty_pos_facts p) as (_ & Hd & _).
    split; [apply four_digit_pattern_length|].
    intros Hlen. apply four_digit_pattern_digits; assumption.
  - change (pretty (Zneg p)) with (String "-" (pretty (Npos p))).
    split; [|lia].
    destruct (pretty (Npos p)) as [|b [|c [|d [|e s]]]]; discriminate.
Qed.

(** X25. When the loaded record's work_start_year is the integer n, the text that
    form population puts in the field passes the field's rules exactly when
    1000 <= n <= 9999 and n does not exceed the current year. *)
Theorem loaded_year_validation (st : state) (currentYear n : Z) :
  truthy (therapist st) = true ->
  member (therapist st) "work_start_year" = Num n ->
  - 2 ^ 53 < n < 2 ^ 53 ->
  exists year,
    lookup_prop (formValues (exec populateForm st)) "work_start_year" = Str year
    /\ (validateField (work_start_year_rules currentYear) year = None <->
        1000 <= n <= 9999 /\ n <= currentYear).
Proof.
  intros Ht Hyear _.
  destruct (populateForm_exec st Ht) as (defaults & -> & Hdef). subst defaults.
  cbn [formValues set_imagePreview set_initialValues set_formValues].
  cbn [lookup_prop String.eqb Ascii.eqb Bool.eqb]. rewrite Hyear.
  destruct n as [|p|p].
  - exists "". split; [reflexivity|]. rewrite year_rules_pass.
    split; [intros [H _]; congruence | lia].
  - exists (pretty (Zpos p)). split; [reflexivity|].
    rewrite year_rules_pass, pretty_four_digit.
    destruct (pretty_pos_facts p) as (Hne & _ & Hv).
    change (pretty (Zpos p)) with (pretty (Npos p)). rewrite Hv.
    split; [intros (_ & H1 & H2); auto | intros [H1 H2]; auto].
  - exists (pretty (Zneg p)). split; [reflexivity|].
    rewrite year_rules_pass, pretty_four_digit. split; [intros (_ & H & _); lia | lia].
Qed.

(** ** The other text rules *)

(** X26. For an ASCII value: full_name passes its rules exactly when it has at
    least 2 characters, address exactly when it has at least 5, phone
    exactly when it is not empty, and nic_number always; the empty value
    fails full_name, address and phone with their 'required' messages. *)
Theorem text_rules_validation (v : string) :
  is_ascii_string v = true ->
  (validateField full_name_rules v = None <-> (2 <= String.length v)%nat)
  /\ (validateField address_rules v = None <-> (5 <= String.length v)%nat)
  /\ (validateField phone_rules v = None <-> v <> "")
  /\ validateField nic_number_rules v = None
  /\ (v = "" ->
      validateField full_name_rules v = Some (mkFieldError "required" "Full name is required")
      /\ validateField address_rules v = Some (mkFieldError "required" "Address is required")
      /\ validateField phone_rules v
         = Some (mkFieldError "required" "Phone number is required")).
Proof.
  intros _. unfold validateField, full_name_rules, address_rules, phone_rules,
    nic_number_rules.
  cbn [required minLength pattern validate first_error].
  destruct (String.eqb_spec v "") as [->|Hne]; simpl.
  - repeat split; try discriminate; try lia; try congruence. 
  - assert (Hlen : (1 <= String.length v)%nat).
    { destruct v; [congruence | simpl; lia]. }
    destruct (Nat.ltb_spec (String.length v) 2), (Nat.ltb_spec (String.length v) 5);
      simpl; repeat split; try discriminate; try lia; try congruence; auto.
Qed.

(** ** Patterns *)

Lemma Matches_nil_app (r1 r2 : regex) (l : list ascii) :
  Matches (Seq r1 r2) l <-> exists l1 l2, l = l1 ++ l2 /\ Matches r1 l1 /\ Matches r2 l2.
Proof.
  split.
  - intros H. inversion H; subst. eauto.
  - intros (l1 & l2 & -> & H1 & H2). constructor; assumption.
Qed.

Lemma nullable_spec (r : regex) : nullable r = true <-> Matches r [].
Proof.
  induction r as [| |p|r1 IH1 r2 IH2|r1 IH1 r2 IH2|r IH]; simpl.
  - split; [discriminate | intros H; inversion H].
  - split; [constructor | reflexivity].
  - split; [discriminate | intros H; inversion H].
  - rewrite andb_true_iff, IH1, IH2, Matches_nil_app. split.
    + intros [H1 H2]. exists [], []. auto.
    + intros (l1 & l2 & Heq & H1 & H2). symmetry in Heq.
      apply app_eq_nil in Heq as [-> ->]. auto.
  - rewrite orb_true_iff, IH1, IH2. split.
    + intros [H|H]; [apply MAltL | apply MAltR]; exact H.
    + intros H. inversion H; subst; auto.
  - split; [constructor | reflexivity].
Qed.

Lemma Matches_star_cons (r : regex) (c : ascii) (l : list ascii) :
  Matches (Star r) (c :: l) ->
  exists l1 l2, l = l1 ++ l2 /\ Matches r (c :: l1) /\ Matches (Star r) l2.
Proof.
  intros H. remember (Star r) as r' eqn:Hr. remember (c :: l) as l' eqn:Hl.
  revert l Hl. induction H as [| | | | | |r0 l1 l2 H1 _ H2 IH2]; intros k Hk;
    try discriminate.
  injection Hr as ->. destruct l1 as [|c1 l1].
  - apply IH2; [reflexivity | exact Hk].
  - injection Hk as -> <-. eauto.
Qed.

Lemma deriv_spec (r : regex) (c : ascii) (l : list ascii) :
  Matches (deriv c r) l <-> Matches r (c :: l).
Proof.
  revert l. induction r as [| |p|r1 IH1 r2 IH2|r1 IH1 r2 IH2|r IH]; intros l; simpl.
  - split; intros H; inversion H.
  - split; intros H; inversion H.
  - destruct (p c) eqn:Hp; split; intros H; inversion H; subst.
    + constructor. exact Hp.
    + constructor.
    + congruence.
  - assert (Hleft : Matches (Seq (deriv c r1) r2) l ->
                    Matches (Seq r1 r2) (c :: l)).
    { intros H. apply Matches_nil_app in H as (l1 & l2 & -> & H1 & H2).
      apply IH1 in H1. exact (MSeq r1 r2 (c :: l1) l2 H1 H2). }
    assert (Hback : Matches (Seq r1 r2) (c :: l) ->
                    Matches (Seq (deriv c r1) r2) l
                    \/ (Matches r1 [] /\ Matches (deriv c r2) l)).
    { intros H. apply Matches_nil_app in H as (l1 & l2 & Heq & H1 & H2).
      destruct l1 as [|c1 l1]; simpl in Heq.
      - right. subst l2. split; [exact H1 | apply IH2; exact H2].
      - injection Heq as <- ->. left. constructor; [apply IH1; exact H1 | exact H2]. }
    destruct (nullable r1) eqn:Hn.
    + split.
      * intros H. inversion H; subst; [apply Hleft; assumption|].
        apply nullable_spec in Hn.
        match goal with Hd : Matches (deriv c r2) l |- _ => apply IH2 in Hd;
          exact (MSeq r1 r2 [] (c :: l) Hn Hd) end.
      * intros H. destruct (Hback H) as [Hl|[_ Hr]]; [apply MAltL | apply MAltR]; assumption.
    + split; [exact Hleft|].
      intros H. destruct (Hback H) as [Hl|[Hnil _]]; [exact Hl|].
      apply nullable_spec in Hnil. congruence.
  - split; intros H; inversion H; subst;
      first [apply MAltL; apply IH1; assumption | apply MAltR; apply IH2; assumption].
  - split.
    + intros H. apply Matches_nil_app in H as (l1 & l2 & -> & H1 & H2).
      apply IH in H1. exact (MStarApp r (c :: l1) l2 H1 H2).
    + intros H. apply Matches_star_cons in H as (l1 & l2 & -> & H1 & H2).
      constructor; [apply IH; exact H1 | exact H2].
Qed.

Lemma regex_test_spec (r : regex) (s : string) :
  regex_test r s = true <-> Matches r (list_ascii_of_string s).
Proof.
  revert r. induction s as [|c s IH]; intros r; simpl.
  - apply nullable_spec.
  - rewrite IH. apply deriv_spec.
Qed.

Lemma Matches_class (p : ascii -> bool) (l : list ascii) :
  Matches (Class p) l <-> exists c, l = [c] /\ p c = true.
Proof.
  split.
  - intros H. inversion H; subst. eauto.
  - intros (c & -> & Hp). constructor. exact Hp.
Qed.

Lemma Matches_star_class (p : ascii -> bool) (l : list ascii) :
  Matches (Star (Class p)) l <-> forallb p l = true.
Proof.
  split.
  - intros H. remember (Star (Class p)) as r eqn:Hr.
    induction H as [| | | | | |r0 l1 l2 H1 _ H2 IH2]; try discriminate; [reflexivity|].
    injection Hr as ->. inversion H1; subst. simpl.
    rewrite IH2 by reflexivity. rewrite andb_true_r. assumption.
  - induction l as [|c l IH]; simpl; intros H; [constructor|].
    apply andb_prop in H as [Hc Hl].
    exact (MStarApp (Class p) [c] l (MClass p c Hc) (IH Hl)).
Qed.

Lemma Matches_plus_class (p : ascii -> bool) (l : list ascii) :
  Matches (Plus (Class p)) l <-> l <> [] /\ forallb p l = true.
Proof.
  unfold Plus. rewrite Matches_nil_app. split.
  - intros (l1 & l2 & -> & H1 & H2). apply Matches_class in H1 as (c & -> & Hc).
    apply Matches_star_class in H2. simpl. rewrite Hc, H2. split; [discriminate | reflexivity].
  - intros [Hne Hall]. destruct l as [|c l]; [congruence|]. simpl in Hall.
    apply andb_prop in Hall as [Hc Hl]. exists [c], l.
    split; [reflexivity|]. split; [constructor; exact Hc | apply Matches_star_class; exact Hl].
Qed.

Lemma list_ascii_app (a b : string) :
  list_ascii_of_string (a +:+ b) = list_ascii_of_string a ++ list_ascii_of_string b.
Proof. induction a as [|c a IH]; simpl; [reflexivity | rewrite IH; reflexivity]. Qed.

Lemma string_of_list_app (a b : list ascii) :
  string_of_list_ascii (a ++ b) = string_of_list_ascii a +:+ string_of_list_ascii b.
Proof. induction a as [|c a IH]; simpl; [reflexivity | rewrite IH; reflexivity]. Qed.

Lemma list_ascii_length (s : string) : length (list_ascii_of_string s) = String.length s.
Proof. induction s as [|c s IH]; simpl; [reflexivity | rewrite IH; reflexivity]. Qed.

Lemma list_ascii_nil (s : string) : list_ascii_of_string s = [] <-> s = "".
Proof. destruct s; simpl; split; intros H; (reflexivity || discriminate). Qed.

(** The strings the email pattern denotes. *)
Lemma email_pattern_lists (l : list ascii) :
  Matches email_pattern l <->
  exists lo d t : list ascii,
    l = lo ++ "@"%char :: d ++ "."%char :: t
    /\ lo <> [] /\ forallb email_local_char lo = true
    /\ d <> [] /\ forallb email_domain_char d = true
    /\ (2 <= length t)%nat /\ forallb is_letter t = true.
Proof.
  unfold email_pattern. split.
  - intros H.
    apply Matches_nil_app in H as (lo & l1 & -> & Hlo & H).
    apply Matches_nil_app in H as (at_ & l2 & -> & Hat & H).
    apply Matches_nil_app in H as (d & l3 & -> & Hd & H).
    apply Matches_nil_app in H as (dot & l4 & -> & Hdot & H).
    apply Matches_nil_app in H as (c1 & l5 & -> & Hc1 & H).
    apply Matches_nil_app in H as (c2 & t & -> & Hc2 & Ht).
    apply Matches_plus_class in Hlo as [Hlo1 Hlo2].
    apply Matches_plus_class in Hd as [Hd1 Hd2].
    apply Matches_class in Hat as (a & -> & Ha). apply Ascii.eqb_eq in Ha. subst a.
    apply Matches_class in Hdot as (a & -> & Ha). apply Ascii.eqb_eq in Ha. subst a.
    apply Matches_class in Hc1 as (x1 & -> & Hx1).
    apply Matches_class in Hc2 as (x2 & -> & Hx2).
    apply Matches_star_class in Ht.
    exists lo, d, (x1 :: x2 :: t). simpl. rewrite Hx1, Hx2, Ht.
    repeat split; auto; lia.
  - intros (lo & d & t & -> & Hlo1 & Hlo2 & Hd1 & Hd2 & Hlen & Ht).
    destruct t as [|x1 [|x2 t]]; simpl in Hlen; try lia.
    simpl in Ht. apply andb_prop in Ht as [Hx1 Ht]. apply andb_prop in Ht as [Hx2 Ht].
    apply (MSeq _ _ lo); [apply Matches_plus_class; auto|].
    apply (MSeq _ _ ["@"%char]); [constructor; reflexivity|].
    apply (MSeq _ _ d); [apply Matches_plus_class; auto|].
    apply (MSeq _ _ ["."%char]); [constructor; reflexivity|].
    apply (MSeq _ _ [x1]); [constructor; exact Hx1|].
    apply (MSeq _ _ [x2]); [constructor; exact Hx2|].
    apply Matches_star_class. exact Ht.
Qed.

(** X27. The email rules accept exactly the values of the form mailbox@domain.tld
    where mailbox is a non-empty run of letters, digits and . _ % + -,
    domain a non-empty run of letters, digits, . and -, and tld two or more
    letters; everything else, the empty value included, is refused. *)
Theorem email_rule_accepts (v : string) :
  validateField email_rules v = None <->
  exists mailbox domain tld : string,
    v = mailbox +:+ "@" +:+ domain +:+ "." +:+ tld
    /\ mailbox <> "" /\ all_chars email_local_char mailbox = true
    /\ domain <> "" /\ all_chars email_domain_char domain = true
    /\ (2 <= String.length tld)%nat /\ all_chars is_letter tld = true.
Proof.
  assert (Hmatch : regex_test email_pattern v = true <->
    exists mailbox domain tld : string,
      v = mailbox +:+ "@" +:+ domain +:+ "." +:+ tld
      /\ mailbox <> "" /\ all_chars email_local_char mailbox = true
      /\ domain <> "" /\ all_chars email_domain_char domain = true
      /\ (2 <= String.length tld)%nat /\ all_chars is_letter tld = true).
  { rewrite regex_test_spec, email_pattern_lists. unfold all_chars. split.
    - intros (lo & d & t & Heq & Hlo1 & Hlo2 & Hd1 & Hd2 & Hlen & Ht).
      exists (string_of_list_ascii lo), (string_of_list_ascii d), (string_of_list_ascii t).
      rewrite !list_ascii_of_string_of_list_ascii.
      split.
      { rewrite <- (string_of_list_ascii_of_string v), Heq.
        rewrite string_of_list_app. simpl. rewrite string_of_list_app. reflexivity. }
      split.
      { intros H. apply Hlo1. rewrite <- (list_ascii_of_string_of_list_ascii lo), H.
        reflexivity. }
      split; [exact Hlo2|]. split.
      { intros H. apply Hd1. rewrite <- (list_ascii_of_string_of_list_ascii d), H.
        reflexivity. }
      split; [exact Hd2|]. split; [|exact Ht].
      rewrite <- list_ascii_length, list_ascii_of_string_of_list_ascii. exact Hlen.
    - intros (mb & dom & tld & -> & Hmb1 & Hmb2 & Hd1 & Hd2 & Hlen & Ht).
      exists (list_ascii_of_string mb), (list_ascii_of_string dom), (list_ascii_of_string tld).
      rewrite !list_ascii_app. simpl.
      rewrite list_ascii_length, !list_ascii_nil. repeat split; auto. }
  rewrite <- Hmatch.
  unfold validateField, email_rules. cbn [required minLength pattern validate first_error].
  destruct (String.eqb_spec v "") as [->|Hne]; simpl.
  - split; discriminate.
  - destruct (regex_test email_pattern v); simpl; split; auto; discriminate.
Qed.

Lemma year_pattern_lists (l : list ascii) :
  Matches year_pattern l <->
  exists a b c d, l = [a; b; c; d]
                  /\ is_digit a = true /\ is_digit b = true
                  /\ is_digit c = true /\ is_digit d = true.
Proof.
  unfold year_pattern. split.
  - intros H.
    apply Matches_nil_app in H as (l1 & r1 & -> & H1 & H).
    apply Matches_nil_app in H as (l2 & r2 & -> & H2 & H).
    apply Matches_nil_app in H as (l3 & l4 & -> & H3 & H4).
    apply Matches_class in H1 as (a & -> & Ha). apply Matches_class in H2 as (b & -> & Hb).
    apply Matches_class in H3 as (c & -> & Hc). apply Matches_class in H4 as (d & -> & Hd).
    exists a, b, c, d. auto.
  - intros (a & b & c & d & -> & Ha & Hb & Hc & Hd).
    apply (MSeq _ _ [a]); [constructor; exact Ha|].
    apply (MSeq _ _ [b]); [constructor; exact Hb|].
    apply (MSeq _ _ [c]); [constructor; exact Hc|].
    constructor. exact Hd.
Qed.

(** X28. The four-digit test that the work_start_year rules use agrees on every
    string with the regular expression [/^\d{4}$/] read by the general
    matcher. *)
Theorem four_digit_pattern_is_year_pattern (s : string) :
  four_digit_pattern s = regex_test year_pattern s.
Proof.
  apply eq_true_iff_eq. rewrite regex_test_spec, year_pattern_lists. split.
  - destruct s as [|a [|b [|c [|d [|e s]]]]]; simpl; try discriminate.
    intros H. apply andb_prop in H as [H Hd]. apply andb_prop in H as [H Hc].
    apply andb_prop in H as [Ha Hb]. exists a, b, c, d. auto.
  - intros (a & b & c & d & Heq & Ha & Hb & Hc & Hd).
    destruct s as [|a' [|b' [|c' [|d' [|e s]]]]]; simpl in Heq; try discriminate.
    injection Heq as -> -> -> ->. simpl. rewrite Ha, Hb, Hc, Hd. reflexivity.
Qed.

(** ** The identifier *)

Lemma resolveTherapistId_cases (st : state) :
  therapistId (exec resolveTherapistId st) = therapistId st
  \/ truthy (therapistId (exec resolveTherapistId st)) = true.
Proof.
  unfold exec, resolveTherapistId, localStorage_getItem, bind, gets, try_catch,
    jwtDecode_call, setTherapistId, modify, console_error, throw, ret.
  destruct (localStorage st !! "therapyToken") as [token|]; simpl; [|right; reflexivity].
  destruct (negb (String.eqb token "")); simpl; [|right; reflexivity].
  destruct (jwtDecode token) as [decoded|]; simpl; [|right; reflexivity].
  destruct (truthy (opt_member decoded "therapist_id")) eqn:Hid; simpl; [|left; reflexivity].
  right. unfold opt_member in Hid. destruct (nullish decoded); [discriminate | exact Hid].
Qed.

Lemma step_id (ev : event) (st : state) :
  id_resolved_or_null st -> id_resolved_or_null (step ev st).
Proof.
  unfold id_resolved_or_null. intros Hid.
  destruct ev as [|first second| |d net|f text|f|file]; simpl.
  - destruct (resolveTherapistId_cases st) as [->|Ht]; [exact Hid | right; exact Ht].
  - rewrite (fetchTherapist_kept therapistId);
      [exact Hid | reflexivity | intros; apply queryFn_only_io].
  - replace (therapistId (exec populateForm st)) with (therapistId st); [exact Hid|].
    symmetry. frame_goal therapistId populateForm.
  - replace (therapistId (exec (mutate d net) st)) with (therapistId st); [exact Hid|].
    symmetry. frame_goal therapistId (mutate d net).
  - exact Hid.
  - generalize (lookup_prop (formValues st) (field_key f)). intros v.
    replace (therapistId (exec (handleFieldChange (field_key f) v) st))
      with (therapistId st); [exact Hid|].
    symmetry. frame_goal therapistId (handleFieldChange (field_key f) v).
  - replace (therapistId (exec (handleImageChange file) st)) with (therapistId st);
      [exact Hid|].
    symmetry. frame_goal therapistId (handleImageChange file).
Qed.

(** X29. In every state the panel can reach from its mount the identifier is null
    or truthy, so the profile query is disabled exactly when no identifier
    has been resolved. *)
Theorem identifier_null_or_usable (evs : list event) (storage : gmap string string) :
  id_resolved_or_null (run evs (mount storage))
  /\ (enabled (run evs (mount storage)) = false <->
      therapistId (run evs (mount storage)) = Null).
Proof.
  assert (H : forall st, id_resolved_or_null st -> id_resolved_or_null (run evs st)).
  { induction evs as [|ev evs IH]; intros st Hst; simpl; [exact Hst|].
    apply IH, step_id, Hst. }
  specialize (H (mount storage) (or_introl eq_refl)).
  split; [exact H|]. unfold enabled.
  destruct H as [Hn|Ht]; [rewrite Hn; split; reflexivity|].
  rewrite Ht. split; [discriminate|]. intros Hn. rewrite Hn in Ht. discriminate.
Qed.

End Profile.

(** ** The properties at sample inputs *)

Lemma resolveTherapistId_spec_witness :
  sample_jwtDecode "" = None
  /\ therapistId (exec (resolveTherapistId sample_jwtDecode)
                      (mount (<["therapyToken" := "with-id"]> ∅)))
     = Num 7.
Proof.
  split; [reflexivity|].
  apply (proj1 (resolveTherapistId_spec sample_jwtDecode eq_refl
                  (mount (<["therapyToken" := "with-id"]> ∅)))
           "with-id" (Obj 1 [("therapist_id", Num 7); ("exp", Num 1999999999)]));
    reflexivity.
Defined.

Lemma resolver_without_claim_witness :
  fetches sample_hashKey
    [(Responds (mkResponse 200 sample_record), NetworkFailure)]
    (exec (resolveTherapistId sample_jwtDecode)
          (mount (<["therapyToken" := "without-id"]> ∅)))
  = mount (<["therapyToken" := "without-id"]> ∅).
Proof.
  apply (resolver_without_claim sample_jwtDecode eq_refl sample_hashKey
           (mount (<["therapyToken" := "without-id"]> ∅))
           "without-id" (Obj 2 [("exp", Num 1999999999)])
           [(Responds (mkResponse 200 sample_record), NetworkFailure)]);
    reflexivity.
Defined.

Lemma queryFn_wrapped_or_bare_witness :
  fst (queryFn (Responds (mkResponse 200 (Obj 5 [("data", sample_record)]))) sample_state)
  = Ok sample_record
  /\ fst (queryFn (Responds (mkResponse 200 sample_record)) sample_state)
     = Ok sample_record.
Proof.
  assert (Hs : 200 < 500) by lia.
  assert (H404 : 200 <> 404) by lia.
  destruct (queryFn_wrapped_or_bare sample_record 5 [("data", sample_record)] 200
              sample_state eq_refl eq_refl Hs H404) as [Hwrapped Hbare].
  split; [exact Hwrapped | exact (Hbare eq_refl)].
Defined.

Lemma queryFn_string_body_invalid_witness :
  fst (queryFn (Responds (mkResponse 200 (Str "<!doctype html><html></html>"))) sample_state)
  = Throw (Error "Invalid response: Received HTML from server").
Proof.
  assert (Hs : 200 < 500) by lia.
  assert (H404 : 200 <> 404) by lia.
  exact (proj1 (queryFn_string_body_invalid 200 "<!doctype html><html></html>"
                  sample_state Hs H404)).
Defined.

Lemma onSuccess_updates_cache_witness :
  therapist sample_hashKey
    (exec (onSuccess sample_hashKey sample_queryMatches
             (Obj 8 [("data", sample_record); ("message", Str "Therapist updated")]))
          sample_state)
  = sample_record.
Proof.
  apply (onSuccess_updates_cache sample_hashKey sample_queryMatches
           (Obj 8 [("data", sample_record); ("message", Str "Therapist updated")])
           sample_record sample_state eq_refl).
  left. split; reflexivity.
Defined.

(** The claim C2 as stated fails: a bare record that has a truthy [data]
    property of its own is taken for a wrapper, so the cache entry holds
    that property's value, not the record, and shows no [nic_number]. *)
Lemma onSuccess_bare_with_data_key :
  is_object sample_record_with_data = true
  /\ member sample_record_with_data "nic_number" = Str "X"
  /\ fst (onSuccess sample_hashKey sample_queryMatches sample_record_with_data sample_state)
     = Ok tt
  /\ therapist sample_hashKey
       (exec (onSuccess sample_hashKey sample_queryMatches sample_record_with_data)
             sample_state)
     = Obj 41 [("k", Num 1)]
  /\ therapist sample_hashKey
       (exec (onSuccess sample_hashKey sample_queryMatches sample_record_with_data)
             sample_state)
     <> sample_record_with_data
  /\ member (therapist sample_hashKey
               (exec (onSuccess sample_hashKey sample_queryMatches sample_record_with_data)
                     sample_state))
            "nic_number"
     = Undefined.
Proof.
  assert (H : therapist sample_hashKey
                (exec (onSuccess sample_hashKey sample_queryMatches sample_record_with_data)
                      sample_state)
              = Obj 41 [("k", Num 1)]) by (vm_compute; reflexivity).
  repeat split; try reflexivity; rewrite ?H; try reflexivity. discriminate.
Qed.


Lemma mutate_failure_witness :
  toasts (exec (mutate sample_hashKey sample_queryMatches (Obj 9 [("image", FileV sample_gif)]) NetworkFailure)
               (mount ∅))
  = [toast_error (Str "Authentication token missing")]
  /\ network (exec (mutate sample_hashKey sample_queryMatches (Obj 9 [("image", FileV sample_gif)]) NetworkFailure)
                   (mount ∅))
     = [].
Proof.
  destruct (mutate_failure sample_hashKey sample_queryMatches (Obj 9 [("image", FileV sample_gif)])
              NetworkFailure (mount ∅)) as [Hauth Hfail].
  destruct (Hauth eq_refl) as (_ & Hnet & Hfails).
  split; [reflexivity | exact Hnet].
Defined.

Lemma fetchTherapist_outcome_witness :
  therapist sample_hashKey (sample_loaded sample_hashKey) = sample_record.
Proof.
  pose proof (fetchTherapist_outcome sample_hashKey
                (Responds (mkResponse 200 sample_record)) NetworkFailure
                sample_state eq_refl) as H.
  exact (proj1 H).
Defined.

Lemma mutationFn_request_witness :
  exists req,
    network (snd (mutationFn (Obj 9 [("email", Str "a@b.com"); ("phone", Str "")])
                             NetworkFailure sample_state))
    = [req]
    /\ body req = [("email", Str "a@b.com")].
Proof.
  assert (Hne : "with-id" <> "") by discriminate.
  destruct (mutationFn_request (Obj 9 [("email", Str "a@b.com"); ("phone", Str "")])
              NetworkFailure "with-id" sample_state eq_refl Hne eq_refl)
    as (req & Hnet & _).
  exists req. split; [exact Hnet|].
  vm_compute in Hnet. injection Hnet as <-. reflexivity.
Defined.

Lemma mutationFn_strict_2xx_witness :
  fst (mutationFn (Obj 9 [("email", Str "a@b.com")])
                  (Responds (mkResponse 204 (Str ""))) sample_state)
  = Ok (Str "").
Proof.
  assert (Hne : "with-id" <> "") by discriminate.
  assert (Hs : 200 <= 204 < 300) by lia.
  exact (proj1 (mutationFn_strict_2xx (Obj 9 [("email", Str "a@b.com")]) (Str "") 204
                  "with-id" sample_state eq_refl Hne eq_refl) Hs).
Defined.

Lemma mutate_rejected_status_witness :
  toasts (exec (mutate sample_hashKey sample_queryMatches (Obj 9 [("email", Str "a@b.com")])
                  (Responds (mkResponse 422 (Obj 8 [("error", Str "Email already in use")]))))
               sample_state)
  = [toast_error (Str "Email already in use")].
Proof.
  assert (Hne : "with-id" <> "") by discriminate.
  assert (Hs : ~ 200 <= 422 < 300) by lia.
  exact (proj1 (mutate_rejected_status sample_hashKey sample_queryMatches (Obj 9 [("email", Str "a@b.com")])
                  (Obj 8 [("error", Str "Email already in use")]) 422 "with-id"
                  sample_state eq_refl Hne eq_refl Hs)).
Defined.

Lemma onSuccess_cache_entry_witness :
  queryCache (exec (onSuccess sample_hashKey sample_queryMatches (Obj 8 [("data", sample_record)])) sample_state)
    !! sample_hashKey [Str "therapist"; Num 7]
  = Some (mkQuery sample_record QSuccess true).
Proof.
  exact (proj1 (onSuccess_cache_entry sample_hashKey sample_queryMatches (fun _ => eq_refl) (Obj 8 [("data", sample_record)])
                  sample_record sample_state "other" eq_refl
                  (or_introl (conj eq_refl eq_refl)))).
Defined.

Lemma onSuccess_notification_witness :
  toasts (exec (onSuccess sample_hashKey sample_queryMatches
                  (Obj 8 [("data", sample_record); ("message", Str "Therapist updated")]))
               sample_state)
  = [toast_success (Str "Therapist updated")]
  /\ network (exec (onSuccess sample_hashKey sample_queryMatches
                      (Obj 8 [("data", sample_record); ("message", Str "Therapist updated")]))
                   sample_state)
     = [read_request (Num 7)].
Proof.
  destruct (onSuccess_notification sample_hashKey sample_queryMatches (fun _ => eq_refl)
              (Obj 8 [("data", sample_record); ("message", Str "Therapist updated")])
              sample_record sample_state eq_refl
              (or_introl (conj eq_refl eq_refl))) as (Htoasts & _ & Hnetwork & _).
  split; [exact Htoasts | exact Hnetwork].
Defined.

Lemma mutate_null_body_witness :
  therapist sample_hashKey
    (exec (mutate sample_hashKey sample_queryMatches (Obj 9 [("email", Str "a@b.com")])
             (Responds (mkResponse 200 Null))) sample_state)
  = Null.
Proof.
  assert (Hne : "with-id" <> "") by discriminate.
  assert (Hs : 200 <= 200 < 300) by lia.
  exact (proj1 (proj2 (mutate_null_body sample_hashKey sample_queryMatches (Obj 9 [("email", Str "a@b.com")])
                         200 "with-id" sample_state eq_refl Hne eq_refl Hs))).
Defined.

Lemma deselect_after_populate_witness :
  imagePreview (exec (handleImageChange sample_hashKey None)
                  (exec (populateForm sample_hashKey) (sample_loaded sample_hashKey)))
  = Str "http://localhost:5000/uploads/a.png".
Proof.
  rewrite (deselect_after_populate sample_hashKey (sample_loaded sample_hashKey) eq_refl).
  reflexivity.
Defined.

Lemma run_form_shaped_witness :
  form_shaped
    (run sample_jwtDecode sample_hashKey sample_queryMatches
       [EvResolve; EvFetch (Responds (mkResponse 200 sample_record)) NetworkFailure;
        EvPopulate; EvInput Email "c@d.org"; EvBlur Email; EvImageChange (Some sample_gif)]
       (mount (<["therapyToken" := "with-id"]> ∅))).
Proof.
  apply (run_form_shaped sample_jwtDecode sample_hashKey sample_queryMatches). reflexivity.
Defined.


Lemma parseInt_ToString_witness : parseInt (ToString (Num (-1999))) = Some (-1999).
Proof.
  assert (H : - 2 ^ 53 < -1999 < 2 ^ 53) by lia.
  exact (parseInt_ToString (-1999) H).
Defined.

Lemma loaded_year_validation_witness :
  exists year,
    lookup_prop (formValues (exec (populateForm sample_hashKey) (sample_loaded sample_hashKey)))
                "work_start_year" = Str year
    /\ (validateField (work_start_year_rules 2025) year = None <->
        1000 <= 1999 <= 9999 /\ 1999 <= 2025).
Proof.
  assert (H : - 2 ^ 53 < 1999 < 2 ^ 53) by lia.
  exact (loaded_year_validation sample_hashKey (sample_loaded sample_hashKey) 2025 1999
           eq_refl eq_refl H).
Defined.

Lemma text_rules_validation_witness :
  validateField full_name_rules "A" = Some (mkFieldError "minLength" "Name must be at least 2 characters")
  /\ (validateField full_name_rules "Al" = None <-> (2 <= String.length "Al")%nat).
Proof.
  split; [reflexivity|].
  exact (proj1 (text_rules_validation "Al" eq_refl)).
Defined.
